(** * Raindrops CSV to Obsidian clipper: the record-to-document pipeline

    A shallow embedding of [raindrops-to-obsidian-clipper.py].  Python
    strings are sequences of Unicode code points, so a string is a list of
    code points ([N]); the length of a string is the length of that list.
    The functions of the script keep their names.  What the script takes
    from the Python standard library is modelled in [Module Py]: the string
    methods and the three fixed regular expressions directly, the parts
    that depend on the Unicode character database as the fields of
    [UnicodeTables]. *)

From stdpp Require Import gmap strings list fin_maps.

Open Scope N_scope.

Abbreviation char := N (only parsing).
Abbreviation str := (list N) (only parsing).

(** A literal of the script: the code points of an ASCII string. *)
Definition lit (s : string) : str :=
  List.map Ascii.N_of_ascii (String.list_ascii_of_string s).

(** ** The Python library the script calls *)

(** The Unicode character database is not part of the script, and the
    checks [urlsplit] makes on a network location with brackets differ
    from one interpreter to the next.  They are kept abstract; on ASCII
    input without brackets none of them is consulted. *)
Class UnicodeTables := {
  (** [str.isalnum] of a code point above U+007F *)
  uni_isalnum : char -> bool;
  (** [str.lower] of a string that holds a code point above U+007F *)
  uni_lower : str -> str;
  (** [unicodedata.normalize('NFKC', _)] *)
  uni_nfkc : str -> str;
  (** [urlsplit] accepts this network location, which holds both [[] and
      []]: no check before Python 3.11.4, [_check_bracketed_host] then,
      [_check_bracketed_netloc] in the latest versions *)
  brackets_ok : str -> bool
}.

Module Py.

(** [Py_UNICODE_ISSPACE]: the characters [str.strip] removes and the
    regular expression class [\s] matches on a [str] pattern. *)
Definition isspace (c : char) : bool :=
  ((0x09 <=? c) && (c <=? 0x0D)) || ((0x1C <=? c) && (c <=? 0x20))
  || (c =? 0x85) || (c =? 0xA0) || (c =? 0x1680)
  || ((0x2000 <=? c) && (c <=? 0x200A))
  || (c =? 0x2028) || (c =? 0x2029) || (c =? 0x202F) || (c =? 0x205F)
  || (c =? 0x3000).

Definition isascii (c : char) : bool := c <? 0x80.
Definition isupper_ascii (c : char) : bool := (0x41 <=? c) && (c <=? 0x5A).
Definition islower_ascii (c : char) : bool := (0x61 <=? c) && (c <=? 0x7A).
Definition isdigit_ascii (c : char) : bool := (0x30 <=? c) && (c <=? 0x39).
Definition isalpha_ascii (c : char) : bool := isupper_ascii c || islower_ascii c.

(** The class [\w] of a [str] pattern: alphanumeric or underscore. *)
Definition isword `{UnicodeTables} (c : char) : bool :=
  if isascii c then isalpha_ascii c || isdigit_ascii c || (c =? 0x5F)
  else uni_isalnum c.

(** The truth value of a string in a condition: it is not empty. *)
Definition truthy (s : str) : bool := negb (bool_decide (s = [])).

(** [c in chars] for a character [c]. *)
Definition mem (c : char) (chars : str) : bool := existsb (N.eqb c) chars.

Fixpoint dropwhile (p : char -> bool) (s : str) : str :=
  match s with
  | [] => []
  | c :: s' => if p c then dropwhile p s' else s
  end.

Definition lstrip (s : str) : str := dropwhile isspace s.
Definition rstrip (s : str) : str := rev (dropwhile isspace (rev s)).
(** [s.strip()] *)
Definition strip (s : str) : str := rstrip (lstrip s).

Fixpoint startswith (p s : str) : bool :=
  match p, s with
  | [], _ => true
  | _ :: _, [] => false
  | a :: p', b :: s' => (a =? b) && startswith p' s'
  end.

(** [s.replace(old, new)] for a non-empty [old]: the occurrences are found
    from the left and do not overlap.  [skip] counts the characters of a
    match that are still to be passed over. *)
Fixpoint replace_from (old new : str) (skip : nat) (s : str) : str :=
  match s with
  | [] => []
  | c :: s' =>
      match skip with
      | S k => replace_from old new k s'
      | O => if startswith old s
             then new ++ replace_from old new (pred (length old)) s'
             else c :: replace_from old new O s'
      end
  end.

Definition replace (old new s : str) : str := replace_from old new O s.

(** [s.lower()] *)
Definition lower `{UnicodeTables} (s : str) : str :=
  if forallb isascii s
  then List.map (fun c => if isupper_ascii c then c + 0x20 else c) s
  else uni_lower s.

(** [s.split(sep)] for a one-character separator. *)
Fixpoint split (sep : char) (s : str) : list str :=
  match s with
  | [] => [[]]
  | c :: s' =>
      match split sep s' with
      | [] => [[]]
      | piece :: pieces =>
          if c =? sep then [] :: piece :: pieces else (c :: piece) :: pieces
      end
  end.

(** [sep.join(pieces)] *)
Fixpoint join (sep : str) (pieces : list str) : str :=
  match pieces with
  | [] => []
  | [p] => p
  | p :: ps => p ++ sep ++ join sep ps
  end.

(** [re.sub(r'[...]', '', s)] for a character class: the characters of the
    class are deleted. *)
Definition re_delete (class : char -> bool) (s : str) : str :=
  List.filter (fun c => negb (class c)) s.

(** [re.sub(r'\s+', ' ', s)]: each maximal run of whitespace becomes one
    space.  [in_run] tells that the previous character was whitespace. *)
Fixpoint collapse_from (in_run : bool) (s : str) : str :=
  match s with
  | [] => []
  | c :: s' =>
      if isspace c
      then (if in_run then collapse_from true s' else 0x20 :: collapse_from true s')
      else c :: collapse_from false s'
  end.

Definition re_collapse_spaces (s : str) : str := collapse_from false s.

End Py.

(** ** Filename Sanitizer *)

(** The class of the first substitution: the reserved path characters
    [< > :], the double quote (U+0022), [/ \ | ? *]. *)
Definition reserved_chars : str := lit "<>:" ++ [0x22] ++ lit "/\|?*".
Definition reserved (c : char) : bool := Py.mem c reserved_chars.

(** The complement of the class [[^\w\s\-_.,()[\]{}#@&+=!~]] of the second
    substitution: the characters it keeps. *)
Definition allowed `{UnicodeTables} (c : char) : bool :=
  Py.isword c || Py.isspace c || Py.mem c (lit "-_.,()[]{}#@&+=!~").

Definition Untitled : str := lit "Untitled".

Definition sanitize_filename `{UnicodeTables} (title : str) : str :=
  if bool_decide (title = []) || bool_decide (Py.strip title = [])
  then Untitled
  else
    let filename := Py.re_delete reserved title in
    let filename := Py.re_delete (fun c => negb (allowed c)) filename in
    let filename := Py.strip (Py.re_collapse_spaces filename) in
    let filename :=
      if bool_decide (250 < length filename)%nat
      then Py.rstrip (take 250 filename)
      else filename in
    if bool_decide (filename = []) then Untitled else filename.

(** ** Domain Extractor *)

Module Url.

(** [urllib.parse.urlsplit], as far as its [netloc] result and its
    [ValueError]s go (CPython 3.12; the check of a bracketed host is the
    [brackets_ok] of the tables).  [urlparse] calls it and leaves both
    unchanged. *)

Definition c0_control_or_space (c : char) : bool := c <=? 0x20.
Definition unsafe_to_remove (c : char) : bool :=
  (c =? 0x09) || (c =? 0x0D) || (c =? 0x0A).
Definition scheme_char (c : char) : bool :=
  Py.isalpha_ascii c || Py.isdigit_ascii c || Py.mem c (lit "+-.").
Fixpoint takewhile (p : char -> bool) (s : str) : str :=
  match s with
  | [] => []
  | c :: s' => if p c then c :: takewhile p s' else []
  end.

(** [url[:i]] and [url[i+1:]] for [i = url.find(':')], when there is one. *)
Fixpoint cut_at_colon (url : str) : option (str * str) :=
  match url with
  | [] => None
  | c :: url' =>
      if c =? 0x3A then Some ([], url')
      else match cut_at_colon url' with
           | Some (before, after) => Some (c :: before, after)
           | None => None
           end
  end.

(** The url once its scheme, if it has one, is split off. *)
Definition drop_scheme (url : str) : str :=
  match cut_at_colon url with
  | Some (c :: before, after) =>
      if Py.isascii c && Py.isalpha_ascii c && forallb scheme_char (c :: before)
      then after else url
  | _ => url
  end.

(** [_splitnetloc(url, 2)[0]]: from position 2 to the first of [/ ? #]. *)
Definition splitnetloc (url : str) : str :=
  takewhile (fun c => negb (Py.mem c (lit "/?#"))) (drop 2 url).

(** [_checknetloc]: [true] when it does not raise. *)
Definition checknetloc `{UnicodeTables} (netloc : str) : bool :=
  if bool_decide (netloc = []) || forallb Py.isascii netloc then true
  else
    let n := Py.re_delete (fun c => Py.mem c (lit "@:#?")) netloc in
    let netloc2 := uni_nfkc n in
    if bool_decide (n = netloc2) then true
    else negb (existsb (fun c => Py.mem c netloc2) (lit "/?#@:")).

(** [urlparse(url).netloc]; [None] when [urlparse] raises [ValueError]. *)
Definition netloc `{UnicodeTables} (url : str) : option str :=
  let url := Py.dropwhile c0_control_or_space url in
  let url := Py.re_delete unsafe_to_remove url in
  let url := drop_scheme url in
  if Py.startswith (lit "//") url then
    let netloc := splitnetloc url in
    let has_open := Py.mem 0x5B netloc in
    let has_close := Py.mem 0x5D netloc in
    if (has_open && negb has_close) || (has_close && negb has_open) then None
    else if has_open && has_close && negb (brackets_ok netloc) then None
    else if checknetloc netloc then Some netloc else None
  else Some [].

End Url.

(** The body of the [try] block: [None] when it raises. *)
Definition extract_domain_try `{UnicodeTables} (url : str) : option str :=
  if bool_decide (url = []) || bool_decide (Py.strip url = []) then Some []
  else
    domain ← Url.netloc url;
    Some (if bool_decide (domain = []) then []
          else Py.replace (lit "www.") [] domain).

Definition extract_domain `{UnicodeTables} (url : str) : str :=
  match extract_domain_try url with
  | Some domain => domain
  | None => []     (* except: return '' *)
  end.

(** ** Tag Formatter *)

Definition clippings : str := lit "clippings".

(** [s.lower().replace(' ', '-')] *)
Definition tag_of `{UnicodeTables} (s : str) : str :=
  Py.replace (lit " ") (lit "-") (Py.lower s).

(** The list comprehension over [tags_str.split(',')]. *)
Definition existing_tags `{UnicodeTables} (tags_str : str) : list str :=
  List.map (fun tag => tag_of (Py.strip tag))
    (List.filter (fun tag => negb (bool_decide (Py.strip tag = [])))
       (Py.split 0x2C tags_str)).

(** The loop that removes duplicates: [unique_tags] is the accumulator. *)
Definition unique_step (unique_tags : list str) (tag : str) : list str :=
  if bool_decide (tag ∈ unique_tags) then unique_tags else unique_tags ++ [tag].

Definition remove_duplicates (tags : list str) : list str :=
  fold_left unique_step tags [].

(** The list [tags] before duplicates are removed. *)
Definition collected_tags `{UnicodeTables} (tags_str folder : str) : list str :=
  let tags := [clippings] in
  let tags :=
    if negb (bool_decide (folder = []))
       && negb (bool_decide (Py.lower folder = lit "unsorted"))
    then tags ++ [tag_of folder] else tags in
  if negb (bool_decide (tags_str = []))
     && negb (bool_decide (Py.strip tags_str = []))
  then tags ++ existing_tags tags_str else tags.

Definition format_tags `{UnicodeTables} (tags_str folder : str) : list str :=
  remove_duplicates (collected_tags tags_str folder).

(** ** Date Formatter *)

Module Iso.

(** What [datetime.fromisoformat] returns; the year of a [datetime] is
    from 1 to 9999. *)
Record datetime := {
  year : N; month : N; day : N;
  hour : N; minute : N; second : N; microsecond : N;
  (** [None]: naive; [Some (sign, seconds, microseconds)] otherwise *)
  tzoffset : option (bool * N * N)
}.

Definition digit (c : char) : option N :=
  if Py.isdigit_ascii c then Some (c - 0x30) else None.

(** A number of exactly [n] decimal digits in front of [s], and the rest. *)
Fixpoint digits (n : nat) (acc : N) (s : str) : option (N * str) :=
  match n with
  | O => Some (acc, s)
  | S n' =>
      match s with
      | [] => None
      | c :: s' => d ← digit c; digits n' (10 * acc + d) s'
      end
  end.

(** The rest of [s] after the character [c] it must start with. *)
Definition expect (c : char) (s : str) : option str :=
  match s with
  | c' :: s' => if c' =? c then Some s' else None
  | [] => None
  end.

(** [.fff] or [.ffffff], the dot already read: microseconds. *)
Definition fraction (s : str) : option N :=
  if bool_decide (length s = 3%nat) then
    '(ms, _) ← digits 3 0 s; Some (ms * 1000)
  else if bool_decide (length s = 6%nat) then
    '(us, _) ← digits 6 0 s; Some us
  else None.

(** [HH[:MM[:SS[.fff[fff]]]]], all of [s]. *)
Definition hh_mm_ss_ff (s : str) : option (N * N * N * N) :=
  '(hh, s) ← digits 2 0 s;
  match s with
  | [] => Some (hh, 0, 0, 0)
  | 0x3A :: s =>
      '(mm, s) ← digits 2 0 s;
      match s with
      | [] => Some (hh, mm, 0, 0)
      | 0x3A :: s =>
          '(ss, s) ← digits 2 0 s;
          match s with
          | [] => Some (hh, mm, ss, 0)
          | 0x2E :: s => us ← fraction s; Some (hh, mm, ss, us)
          | _ => None
          end
      | _ => None
      end
  | _ => None
  end.

Definition is_sign (c : char) : bool := (c =? 0x2B) || (c =? 0x2D).

(** The time and the offset of [HH[:MM[:SS[.fff[fff]]]][+HH:MM[:SS[.ffffff]]]]:
    the offset starts at the first sign. *)
Definition time_and_offset (s : str)
  : option (N * N * N * N * option (bool * N * N)) :=
  let timestr := Url.takewhile (fun c => negb (is_sign c)) s in
  t ← hh_mm_ss_ff timestr;
  match drop (length timestr) s with
  | [] => Some (t, None)
  | sign :: tzstr =>
      if bool_decide (length tzstr ∈ [5; 8; 15]%nat) then
        '(h, m, sec, us) ← hh_mm_ss_ff tzstr;
        Some (t, Some (sign =? 0x2D, h * 3600 + m * 60 + sec, us))
      else None
  end.

Definition is_leap (y : N) : bool :=
  (y mod 4 =? 0) && (negb (y mod 100 =? 0) || (y mod 400 =? 0)).

Definition days_in_month (y m : N) : N :=
  if m =? 2 then (if is_leap y then 29 else 28)
  else if (m =? 4) || (m =? 6) || (m =? 9) || (m =? 11) then 30 else 31.

(** The checks of the [datetime] and [timezone] constructors. *)
Definition valid (dt : datetime) : bool :=
  (1 <=? year dt) && (year dt <=? 9999)
  && (1 <=? month dt) && (month dt <=? 12)
  && (1 <=? day dt) && (day dt <=? days_in_month (year dt) (month dt))
  && (hour dt <=? 23) && (minute dt <=? 59) && (second dt <=? 59)
  && match tzoffset dt with
     | Some (_, seconds, _) => seconds <? 86400
     | None => true
     end.

(** The [datetime] read from the format
    [YYYY-MM-DD[*HH[:MM[:SS[.fff[fff]]]][+HH:MM[:SS[.ffffff]]]]], where [*]
    is any one character: the format [datetime.fromisoformat] is
    documented to read in Python 3.7 to 3.10, and which the later versions
    read as well, among others.  [None] when the text is not of this
    format or names no day. *)
Definition fromisoformat_classic (s : str) : option datetime :=
  '(y, s) ← digits 4 0 s;
  s ← expect 0x2D s;
  '(m, s) ← digits 2 0 s;
  s ← expect 0x2D s;
  '(d, s) ← digits 2 0 s;
  '(hh, mm, ss, us, tz) ←
     match s with
     | [] => Some (0, 0, 0, 0, None)
     | _ :: tstr => time_and_offset tstr
     end;
  let dt := {| year := y; month := m; day := d; hour := hh;
               minute := mm; second := ss; microsecond := us;
               tzoffset := tz |} in
  if valid dt then Some dt else None.

(** [n] in decimal, left-padded with zeros to [width] digits. *)
Fixpoint zero_padded (width : nat) (n : N) : str :=
  match width with
  | O => []
  | S w => zero_padded w (n / 10) ++ [0x30 + n mod 10]
  end.

(** [n] in decimal, without leading zeros; [fuel] bounds the number of
    digits. *)
Fixpoint decimal_digits (fuel : nat) (n : N) : str :=
  match fuel with
  | O => []
  | S fuel' =>
      if n <? 10 then [0x30 + n]
      else decimal_digits fuel' (n / 10) ++ [0x30 + n mod 10]
  end.

Definition decimal (n : N) : str :=
  decimal_digits (S (N.to_nat (N.log2 n))) n.

(** The year as [%Y] writes it: with leading zeros up to four digits when
    the C library pads it, as it is otherwise (glibc writes 999 for the
    year 999). *)
Definition year_text (pad : bool) (y : N) : str :=
  if pad then zero_padded 4 y else decimal y.

(** [dt.strftime('%Y-%m-%d')] *)
Definition strftime_ymd (pad : bool) (dt : datetime) : str :=
  year_text pad (year dt) ++ lit "-" ++ zero_padded 2 (month dt)
  ++ lit "-" ++ zero_padded 2 (day dt).

End Iso.

(** The [datetime] module of the interpreter and of the platform the
    script runs on. *)
Class DatetimeLib := {
  (** [datetime.fromisoformat]; [None] when it raises.  What it accepts
      has grown from one version of Python to the next. *)
  fromisoformat : str -> option Iso.datetime;
  (** [strftime] pads the year of [%Y] to four digits *)
  pads_year : bool
}.

(** The body of the [try] block: [None] when it raises. *)
Definition format_date_try `{DatetimeLib} (date_str : str) : option str :=
  if bool_decide (date_str = []) || bool_decide (Py.strip date_str = [])
  then Some []
  else
    dt ← fromisoformat (Py.replace (lit "Z") (lit "+00:00") date_str);
    Some (Iso.strftime_ymd pads_year dt).

Definition format_date `{DatetimeLib} (date_str : str) : str :=
  match format_date_try date_str with
  | Some formatted => formatted
  | None => []     (* except: return '' *)
  end.

(** ** Document Assembler *)

(** A value of a row of [csv.DictReader]: a string, or [None] where the
    row has fewer cells than the header. *)
Inductive pyval := PyNone | PyStr (s : str).

Abbreviation row := (gmap string pyval) (only parsing).

(** [row.get(key, default)] *)
Definition row_get (r : row) (key : string) (default : pyval) : pyval :=
  match r !! key with
  | Some v => v
  | None => default
  end.

(** [v.strip()]; [None] is the [AttributeError] of [None.strip()]. *)
Definition strip_value (v : pyval) : option str :=
  match v with
  | PyStr s => Some (Py.strip s)
  | PyNone => None
  end.

(** [row.get(key, '').strip()] *)
Definition get_stripped (r : row) (key : string) : option str :=
  strip_value (row_get r key (PyStr [])).

(** The local variables [create_markdown_content] reads from the row. *)
Record fields := {
  title : str; url : str; excerpt : str; note : str; tags_str : str;
  folder : str; created : str; cover : str; highlights : str
}.

Definition read_fields (r : row) : option fields :=
  title ← get_stripped r "title";
  url ← get_stripped r "url";
  excerpt ← get_stripped r "excerpt";
  note ← get_stripped r "note";
  tags_str ← get_stripped r "tags";
  folder ← get_stripped r "folder";
  created ← get_stripped r "created";
  cover ← get_stripped r "cover";
  highlights ← get_stripped r "highlights";
  Some {| title := title; url := url; excerpt := excerpt; note := note;
          tags_str := tags_str; folder := folder; created := created;
          cover := cover; highlights := highlights |}.

Section Assembler.
Context `{UnicodeTables} `{DatetimeLib}.

(** The line of the [title] field. *)
Definition title_line (f : fields) : str := lit "title: " ++ title f.

(** The YAML front matter. *)
Definition yaml_lines (f : fields) : list str :=
  let domain := extract_domain (url f) in
  let author :=
    if Py.truthy domain then lit "[[" ++ domain ++ lit "]]" else [] in
  let formatted_date := format_date (created f) in
  let formatted_tags := format_tags (tags_str f) (folder f) in
  [lit "---"]
  ++ (if Py.truthy author
      then [lit "author:"; lit "- '" ++ author ++ lit "'"] else [])
  ++ (if Py.truthy formatted_date
      then [lit "created: '" ++ formatted_date ++ lit "'"] else [])
  ++ (if Py.truthy (excerpt f)
      then [lit "description: "
            ++ Py.replace [0x0A] (lit " ")
                 (Py.replace [0x22] [0x5C; 0x22] (excerpt f))]
      else [])
  ++ [lit "published: ''"]
  ++ (if Py.truthy (url f) then [lit "source: " ++ url f] else [])
  ++ [lit "tags:"]
  ++ List.map (fun tag => lit "- " ++ tag) formatted_tags
  ++ [title_line f; lit "---"].

Definition summary_section (f : fields) : list str :=
  if Py.truthy (excerpt f) || Py.truthy (note f) then
    [[]; lit "## Summary"; []]
    ++ (if Py.truthy (excerpt f) then [excerpt f] else [])
    ++ (if Py.truthy (note f)
        then (if Py.truthy (excerpt f) then [[]] else []) ++ [note f]
        else [])
  else [].

Definition highlights_section (f : fields) : list str :=
  if Py.truthy (highlights f) && Py.truthy (Py.strip (highlights f))
  then [[]; lit "## Highlights"; []; highlights f]
  else [].

Definition source_section (f : fields) : list str :=
  if Py.truthy (url f)
  then [[]; lit "## Source"; []; lit "[View Original](" ++ url f ++ lit ")"]
  else [].

(** [content_lines] when the function returns. *)
Definition content_lines (f : fields) : list str :=
  yaml_lines f ++ summary_section f ++ highlights_section f
  ++ source_section f.

(** [None] when a [strip] of the first lines raises. *)
Definition create_markdown_content (r : row) : option str :=
  f ← read_fields r;
  Some (Py.join [0x0A] (content_lines f)).

End Assembler.

(** ** Batch Driver *)

(** [os.path.join(a, b)] of [posixpath]. *)
Definition path_join (a b : str) : str :=
  if Py.startswith (lit "/") b then b
  else if negb (Py.truthy a) || bool_decide (last a = Some 0x2F) then a ++ b
  else a ++ lit "/" ++ b.

(** What iterating a [csv.DictReader] over the opened file gives: the rows
    in order, then the end of the file or an exception ([csv.Error], a
    decoding error).  Both readers of the function are made on the same
    file from its start, so both give the same [reader]. *)
Inductive reader :=
| EndOfFile
| NextRow (r : row) (rest : reader)
| ReadError.

(** What [open(csv_file)] followed by reading and sniffing the sample
    gives. *)
Inductive opened :=
| FileNotFound
| OpenError
| Opened (sniffed : bool) (rd : reader).

(** One constructor for each [print] of the function; the text of an
    exception is left out. *)
Inductive event :=
| PrintProcessing (total_rows : nat)
| PrintBlank
| PrintRowError (title : pyval)
| PrintNotFound (csv_file : str)
| PrintReadError
| PrintComplete
| PrintSuccessful (n : nat)
| PrintFailed (n : nat)
| PrintFilesHeader
| PrintFile (path : str)
| PrintMore (n : nat).

(** The file system and the console the function runs with. *)
Record world := {
  (** [Path(output_dir).mkdir(parents=True, exist_ok=True)] succeeds *)
  mkdir_ok : str -> bool;
  open_csv : str -> opened;
  (** [open(filepath, 'w')] and the write succeed *)
  can_write : str -> bool;
  (** [print] succeeds, given what has been printed so far; it raises
      otherwise: a character the encoding of the console does not have, a
      closed pipe *)
  can_print : list event -> event -> bool
}.

(** The markdown files on disk, the three local variables of the function
    and what it has printed. *)
Record state := {
  files : gmap str str;
  successful_conversions : nat;
  failed_conversions : nat;
  created_files : list str;
  console : list event
}.

(** The state once [e] is printed. *)
Definition printed (e : event) (st : state) : state :=
  {| files := files st;
     successful_conversions := successful_conversions st;
     failed_conversions := failed_conversions st;
     created_files := created_files st;
     console := console st ++ [e] |}.

(** How some statements end: at their end, or with an exception; in both
    cases with the state they have reached. *)
Inductive ended :=
| Normal (st : state)
| Raises (st : state).

(** How the outer [try] block ends: at its end, with the
    [FileNotFoundError] of [open], or with another exception. *)
Inductive tried :=
| Done (st : state)
| NotFound (st : state)
| Failed (st : state).

(** How a call ends: with an exception, at one of the two [return 0, 1]
    of the handlers of the outer [try], or at the last line. *)
Inductive outcome :=
| Raised
| BatchFailure (returned : nat * nat)
| Completed (returned : nat * nat).

Definition return_value (o : outcome) : option (nat * nat) :=
  match o with
  | Raised => None
  | BatchFailure v | Completed v => Some v
  end.

Section Driver.
Context `{UnicodeTables} `{DatetimeLib}.
Variable w : world.

(** [print(e)]: [None] when it raises. *)
Definition print (e : event) (st : state) : option state :=
  if can_print w (console st) e then Some (printed e st) else None.

(** Some [print]s in a row. *)
Fixpoint print_all (es : list event) (st : state) : ended :=
  match es with
  | [] => Normal st
  | e :: es' =>
      match print e st with
      | Some st' => print_all es' st'
      | None => Raises st
      end
  end.

(** The first pass: [sum(1 for _ in reader)]. *)
Fixpoint total_rows (rd : reader) : option nat :=
  match rd with
  | EndOfFile => Some O
  | NextRow _ rest => S <$> total_rows rest
  | ReadError => None
  end.

(** The inner [try] block up to the file being opened: the file name, the
    path and the content; [None] when it raises. *)
Definition prepare_row (output_dir : str) (r : row) : option (str * str * str) :=
  title ← get_stripped r "title";
  let title := if Py.truthy title then title else Untitled in
  let filename := sanitize_filename title ++ lit ".md" in
  let filepath := path_join output_dir filename in
  markdown_content ← create_markdown_content r;
  Some (filename, filepath, markdown_content).

(** The handler of the inner [try]: it prints, then counts the failure.
    When its [print] raises, the exception leaves the handler. *)
Definition row_failed (r : row) (st : state) : ended :=
  match print (PrintRowError (row_get r "title" (PyStr (lit "Unknown")))) st with
  | Some st =>
      Normal {| files := files st;
                successful_conversions := successful_conversions st;
                failed_conversions := S (failed_conversions st);
                created_files := created_files st;
                console := console st |}
  | None => Raises st
  end.

(** One turn of the loop over the rows. *)
Definition process_row (output_dir : str) (r : row) (st : state) : ended :=
  match prepare_row output_dir r with
  | Some (filename, filepath, markdown_content) =>
      if can_write w filepath then
        Normal {| files := <[filepath := markdown_content]> (files st);
                  successful_conversions := S (successful_conversions st);
                  failed_conversions := failed_conversions st;
                  created_files := created_files st ++ [filename];
                  console := console st |}
      else row_failed r st
  | None => row_failed r st
  end.

(** The loop: it ends with the reader, or with the exception of the
    reader or of the handler of a row. *)
Fixpoint process_rows (output_dir : str) (rd : reader) (st : state) : ended :=
  match rd with
  | EndOfFile => Normal st
  | NextRow r rest =>
      match process_row output_dir r st with
      | Normal st' => process_rows output_dir rest st'
      | Raises st' => Raises st'
      end
  | ReadError => Raises st
  end.

(** The outer [try] block. *)
Definition try_block (csv_file output_dir : str) (st : state) : tried :=
  match open_csv w csv_file with
  | FileNotFound => NotFound st
  | OpenError => Failed st
  | Opened false _ => Failed st
  | Opened true rd =>
      match total_rows rd with
      | None => Failed st
      | Some total =>
          match print (PrintProcessing total) st with
          | None => Failed st
          | Some st =>
              match print PrintBlank st with
              | None => Failed st
              | Some st =>
                  match process_rows output_dir rd st with
                  | Normal st => Done st
                  | Raises st => Failed st
                  end
              end
          end
      end
  end.

(** What the lines after the loop print. *)
Definition summary_events (output_dir : str) (st : state) : list event :=
  [PrintBlank; PrintComplete;
   PrintSuccessful (successful_conversions st);
   PrintFailed (failed_conversions st)]
  ++ (if bool_decide (created_files st = []) then []
      else
        PrintFilesHeader
        :: List.map (fun filename => PrintFile (output_dir ++ lit "/" ++ filename))
             (take 10 (created_files st))
        ++ (if bool_decide (10 < length (created_files st))%nat
            then [PrintMore (length (created_files st) - 10)] else [])).

Definition convert_csv_to_markdown (csv_file output_dir : str)
    (disk : gmap str str) : outcome * state :=
  let st := {| files := disk; successful_conversions := 0;
               failed_conversions := 0; created_files := [];
               console := [] |} in
  if negb (mkdir_ok w output_dir) then (Raised, st)
  else
    match try_block csv_file output_dir st with
    | NotFound st =>
        match print (PrintNotFound csv_file) st with
        | Some st => (BatchFailure (0, 1)%nat, st)
        | None => (Raised, st)
        end
    | Failed st =>
        match print PrintReadError st with
        | Some st => (BatchFailure (0, 1)%nat, st)
        | None => (Raised, st)
        end
    | Done st =>
        match print_all (summary_events output_dir st) st with
        | Normal st =>
            (Completed (successful_conversions st, failed_conversions st), st)
        | Raises st => (Raised, st)
        end
    end.

End Driver.

(** ** Command line *)

(** How [main] ends once the arguments are parsed: at the [sys.exit(1)] of
    the missing input file, at one of the three [sys.exit] after the
    conversion, or with the exception of the conversion, which nothing
    catches. *)
Inductive main_outcome :=
| InputMissing
| Exited (code : N) (st : state)
| Crashed (st : state).

Section Main.
Context `{UnicodeTables} `{DatetimeLib}.
Variable w : world.
(** [os.path.exists] *)
Variable path_exists : str -> bool.

(** The status chosen from the two counts. *)
Definition exit_code (successful failed : nat) : N :=
  if bool_decide (0 < failed)%nat && bool_decide (successful = 0%nat) then 1
  else if bool_decide (0 < failed)%nat then 2
  else 0.

(** [main] on the parsed arguments; [output_dir] is [None] when the second
    argument is left out and its default, [output], is used.  The message
    of the missing input file is left out. *)
Definition main (csv_file : str) (output_dir : option str)
    (disk : gmap str str) : main_outcome :=
  let output_dir := default (lit "output") output_dir in
  if negb (path_exists csv_file) then InputMissing
  else
    match convert_csv_to_markdown w csv_file output_dir disk with
    | (Raised, st) => Crashed st
    | (BatchFailure (successful, failed), st)
    | (Completed (successful, failed), st) =>
        Exited (exit_code successful failed) st
    end.

End Main.

(** * What the properties are stated with *)

(** A string that does not start with whitespace. *)
Definition no_lead (s : str) : Prop := Py.lstrip s = s.

(** Every run of whitespace is a single space; [after_space] tells that
    the character before the string was whitespace. *)
Fixpoint single_spaced (after_space : bool) (s : str) : bool :=
  match s with
  | [] => true
  | c :: s' =>
      if Py.isspace c
      then (c =? 0x20) && negb after_space && single_spaced true s'
      else single_spaced false s'
  end.

(** What every result of the sanitizer satisfies. *)
Definition tidy `{UnicodeTables} (s : str) : Prop :=
  Forall (λ c, reserved c = false) s
  ∧ Forall (λ c, negb (allowed c) = false) s
  ∧ no_lead s ∧ Py.rstrip s = s
  ∧ single_spaced false s = true
  ∧ (length s ≤ 250)%nat.

(** The tags of the comma-separated string, when the function reads it. *)
Definition user_tags `{UnicodeTables} (tags_str : str) : list str :=
  if Py.truthy tags_str && Py.truthy (Py.strip tags_str)
  then existing_tags tags_str else [].

(** The folder is empty or is the sentinel, whatever its case. *)
Definition no_folder_tag `{UnicodeTables} (folder : str) : Prop :=
  folder = [] ∨ Py.lower folder = lit "unsorted".

Definition str_eq_dec (s t : str) : {s = t} + {s ≠ t} := decide (s = t).


(** A line that opens a body section. *)
Definition is_heading (line : str) : bool := Py.startswith (lit "## ") line.

(** Every collected file name is the name of a file on disk, and the
    counter of successes counts the collected names. *)
Definition consistent (output_dir : str) (st : state) : Prop :=
  successful_conversions st = length (created_files st)
  ∧ ∀ name, name ∈ created_files st →
            is_Some (files st !! path_join output_dir name).

(** [s] with its ASCII capitals in lower case: what two strings that
    differ in the case of their letters only have in common. *)
Definition fold_case (s : str) : str :=
  List.map (λ c, if Py.isupper_ascii c then c + 0x20 else c) s.

(** The tables put no ASCII capital in what [lower] returns, as
    [str.lower] never does. *)
Definition lower_gives_no_capital `{UnicodeTables} : Prop :=
  ∀ s, Forall (λ c, Py.isupper_ascii c = false) (uni_lower s).

(** [s] with each of its spaces replaced by a hyphen. *)
Definition hyphenated (s : str) : str :=
  List.map (λ c, if c =? 0x20 then 0x2D else c) s.

(** The lines of a text: what stands between its line feeds. *)
Definition text_lines (doc : str) : list str := Py.split 0x0A doc.


(** A [datetime] module that reads the classic format and nothing else,
    as Python 3.7 to 3.10. *)
Definition classic_datetime (pad : bool) : DatetimeLib :=
  {| fromisoformat := Iso.fromisoformat_classic; pads_year := pad |}.

(** Tables to run the functions on ASCII input without brackets, where
    they are not consulted: nothing above U+007F is alphanumeric, [lower]
    puts the ASCII capitals in lower case and leaves the rest, the normal
    form changes nothing, and no network location with brackets is
    accepted. *)
Definition ascii_tables : UnicodeTables :=
  {| uni_isalnum := λ _, false;
     uni_lower := List.map (λ c, if Py.isupper_ascii c then c + 0x20 else c);
     uni_nfkc := λ s, s;
     brackets_ok := λ _, false |}.

(** A file system and a console where everything succeeds, and where the
    input file is read as [rd]. *)
Definition world_reading (rd : reader) : world :=
  {| mkdir_ok := λ _, true; open_csv := λ _, Opened true rd;
     can_write := λ _, true; can_print := λ _ _, true |}.

(** The same with a console that prints ASCII only: the [print] of a text
    with another character raises [UnicodeEncodeError]. *)
Definition world_ascii_console (rd : reader) : world :=
  {| mkdir_ok := λ _, true; open_csv := λ _, Opened true rd;
     can_write := λ _, true;
     can_print := λ _ e,
       match e with
       | PrintRowError (PyStr text) | PrintNotFound text | PrintFile text =>
           forallb Py.isascii text
       | _ => true
       end |}.

(** The state a statement has reached when it ends. *)
Definition state_of (e : ended) : state :=
  match e with Normal st | Raises st => st end.

(** [st'] differs from [st] in what has been printed only. *)
Definition same_but_console (st st' : state) : Prop :=
  files st' = files st
  ∧ successful_conversions st' = successful_conversions st
  ∧ failed_conversions st' = failed_conversions st
  ∧ created_files st' = created_files st.

(** A row with a title and nothing else. *)
Definition titled (title : str) : row := {[ "title"%string := PyStr title ]}.

(** [old] occurs in [s]. *)
Fixpoint occurs (old s : str) : bool :=
  match s with
  | [] => Py.startswith old []
  | _ :: s' => Py.startswith old s || occurs old s'
  end.

(** The characters of [s] that are not whitespace, in order. *)
Definition nonspace (s : str) : str :=
  List.filter (λ c, negb (Py.isspace c)) s.

(** The number of slashes of [s]. *)
Definition slashes (s : str) : nat :=
  length (List.filter (λ c, c =? 0x2F) s).

(** The keys [create_markdown_content] reads. *)
Definition recognized_keys : list string :=
  ["title"; "url"; "excerpt"; "note"; "tags"; "folder"; "created"; "cover";
   "highlights"]%string.

(** [s] is the text [YYYY-MM-DD] of a day of the calendar. *)
Definition calendar_date (s : str) : Prop :=
  ∃ y m d,
    s = Iso.zero_padded 4 y ++ lit "-" ++ Iso.zero_padded 2 m ++ lit "-"
        ++ Iso.zero_padded 2 d
    ∧ 1 ≤ y ≤ 9999 ∧ 1 ≤ m ≤ 12 ∧ 1 ≤ d ≤ Iso.days_in_month y m.

(** The name of the file of a record: its sanitized title and [.md]. *)
Definition file_name `{UnicodeTables} (f : fields) : str :=
  sanitize_filename (title f) ++ lit ".md".

(** [name] is a sanitized title followed by [.md]. *)
Definition safe_name `{UnicodeTables} (name : str) : Prop :=
  ∃ title, name = sanitize_filename title ++ lit ".md".

(** The files of [st] other than the ones named in its list of created
    files are the ones of [disk]. *)
Definition only_named_written (output_dir : str) (disk : gmap str str)
    (st : state) : Prop :=
  ∀ path, (∀ name, name ∈ created_files st → path ≠ path_join output_dir name) →
          files st !! path = disk !! path.

(** * Properties *)

(** ** Strings *)

Section StringLemmas.
Implicit Types (s t : list N) (p : N → bool).

Lemma dropwhile_split p s :
  ∃ a, s = a ++ Py.dropwhile p s ∧ forallb p a = true.
Proof.
  induction s as [|c s IH]; simpl.
  - by exists [].
  - destruct (p c) eqn:Hc.
    + destruct IH as (a & Ha & Hp). exists (c :: a). simpl.
      rewrite Hc, Hp. split; [by f_equal | done].
    + by exists [].
Qed.

Lemma dropwhile_idem p s :
  Py.dropwhile p (Py.dropwhile p s) = Py.dropwhile p s.
Proof.
  induction s as [|c s IH]; simpl; [done|].
  destruct (p c) eqn:Hc; [done|]. simpl. by rewrite Hc.
Qed.

Lemma dropwhile_Forall (P : N → Prop) p s :
  Forall P s → Forall P (Py.dropwhile p s).
Proof.
  induction 1 as [|c s Hc Hs IH]; simpl; [constructor|].
  destruct (p c); [done | by constructor].
Qed.

Lemma dropwhile_length p s : (length (Py.dropwhile p s) ≤ length s)%nat.
Proof.
  induction s as [|c s IH]; simpl; [lia|]. destruct (p c); simpl; lia.
Qed.

Lemma rstrip_split s : ∃ a, s = Py.rstrip s ++ a.
Proof.
  unfold Py.rstrip.
  destruct (dropwhile_split Py.isspace (rev s)) as (a & Ha & _).
  exists (rev a). rewrite <- rev_app_distr, <- Ha. by rewrite rev_involutive.
Qed.

Lemma rstrip_idem s : Py.rstrip (Py.rstrip s) = Py.rstrip s.
Proof. unfold Py.rstrip. by rewrite rev_involutive, dropwhile_idem. Qed.

Lemma rstrip_Forall (P : N → Prop) s : Forall P s → Forall P (Py.rstrip s).
Proof.
  intros Hs. destruct (rstrip_split s) as [a Ha].
  rewrite Ha in Hs. by apply Forall_app in Hs as [? _].
Qed.

Lemma rstrip_length s : (length (Py.rstrip s) ≤ length s)%nat.
Proof.
  destruct (rstrip_split s) as [a Ha]. rewrite Ha at 2.
  rewrite length_app. lia.
Qed.

Lemma strip_Forall (P : N → Prop) s : Forall P s → Forall P (Py.strip s).
Proof. intros. by apply rstrip_Forall, dropwhile_Forall. Qed.

Lemma no_lead_lstrip s : no_lead (Py.lstrip s).
Proof. apply dropwhile_idem. Qed.

Lemma no_lead_prefix s t : no_lead (s ++ t) → no_lead s.
Proof.
  unfold no_lead, Py.lstrip. destruct s as [|c s]; simpl; [done|].
  destruct (Py.isspace c); [|done].
  intros Heq. apply (f_equal length) in Heq. simpl in Heq.
  pose proof (dropwhile_length Py.isspace (s ++ t)). lia.
Qed.

Lemma no_lead_rstrip s : no_lead s → no_lead (Py.rstrip s).
Proof.
  intros Hs. destruct (rstrip_split s) as [a Ha].
  rewrite Ha in Hs. by eapply no_lead_prefix.
Qed.

Lemma no_lead_take n s : no_lead s → no_lead (take n s).
Proof.
  intros Hs. rewrite <- (take_drop n s) in Hs. by eapply no_lead_prefix.
Qed.

Lemma strip_fixed s : no_lead s → Py.rstrip s = s → Py.strip s = s.
Proof. unfold Py.strip. intros Hl Hr. by rewrite Hl. Qed.

Lemma strip_idem s : Py.strip (Py.strip s) = Py.strip s.
Proof.
  apply strip_fixed.
  - apply no_lead_rstrip, no_lead_lstrip.
  - apply rstrip_idem.
Qed.

Lemma collapse_single_spaced b s : single_spaced b (Py.collapse_from b s) = true.
Proof.
  revert b. induction s as [|c s IH]; intros b; simpl; [done|].
  destruct (Py.isspace c) eqn:Hc.
  - destruct b; simpl; [apply IH|]. by rewrite IH.
  - simpl. rewrite Hc. apply IH.
Qed.

Lemma collapse_fixed b s :
  single_spaced b s = true → Py.collapse_from b s = s.
Proof.
  revert b. induction s as [|c s IH]; intros b; simpl; [done|].
  destruct (Py.isspace c) eqn:Hc.
  - intros [[Hsp Hb%negb_true_iff]%andb_prop Hs]%andb_prop.
    apply N.eqb_eq in Hsp. subst. simpl. f_equal. by apply IH.
  - intros Hs. f_equal. by apply IH.
Qed.

Lemma single_spaced_prefix b s t :
  single_spaced b (s ++ t) = true → single_spaced b s = true.
Proof.
  revert b. induction s as [|c s IH]; intros b; simpl; [done|].
  destruct (Py.isspace c).
  - intros [Hc Hs]%andb_prop. rewrite Hc. simpl. by eapply IH.
  - apply IH.
Qed.

Lemma single_spaced_lstrip b b' s :
  single_spaced b s = true → single_spaced b' (Py.lstrip s) = true.
Proof.
  unfold Py.lstrip. revert b. induction s as [|c s IH]; intros b; simpl; [done|].
  destruct (Py.isspace c) eqn:Hc.
  - intros [_ Hs]%andb_prop. by eapply IH.
  - simpl. by rewrite Hc.
Qed.

Lemma single_spaced_rstrip b s :
  single_spaced b s = true → single_spaced b (Py.rstrip s) = true.
Proof.
  intros Hs. destruct (rstrip_split s) as [a Ha].
  rewrite Ha in Hs. by eapply single_spaced_prefix.
Qed.

Lemma single_spaced_take b n s :
  single_spaced b s = true → single_spaced b (take n s) = true.
Proof.
  intros Hs. rewrite <- (take_drop n s) in Hs. by eapply single_spaced_prefix.
Qed.

Lemma collapse_Forall (P : N → Prop) b s :
  P 0x20 → Forall P s → Forall P (Py.collapse_from b s).
Proof.
  intros Hsp Hs. revert b.
  induction Hs as [|c s Hc Hs IH]; intros b; simpl; [constructor|].
  destruct (Py.isspace c); [destruct b|]; auto.
Qed.

Lemma re_delete_Forall (P : N → Prop) class s :
  Forall P s → Forall P (Py.re_delete class s).
Proof.
  induction 1 as [|c s Hc Hs IH]; simpl; [constructor|].
  unfold Py.re_delete in *. simpl. destruct (class c); simpl; auto.
Qed.

Lemma re_delete_class class s :
  Forall (λ c, class c = false) (Py.re_delete class s).
Proof.
  induction s as [|c s IH]; simpl; [constructor|].
  unfold Py.re_delete in *. simpl.
  destruct (class c) eqn:Hc; simpl; auto.
Qed.

Lemma re_delete_fixed class s :
  Forall (λ c, class c = false) s → Py.re_delete class s = s.
Proof.
  induction 1 as [|c s Hc Hs IH]; simpl; [done|].
  unfold Py.re_delete in *. simpl. rewrite Hc. simpl. by f_equal.
Qed.

(** Replacing a one-character string works character by character. *)
Lemma replace_char a new s :
  Py.replace [a] new s = flat_map (λ c, if a =? c then new else [c]) s.
Proof.
  unfold Py.replace. induction s as [|c s IH]; simpl; [done|].
  rewrite andb_true_r. destruct (a =? c); simpl; by rewrite IH.
Qed.


End StringLemmas.

Section MoreStrings.
Implicit Types (s t p line : list N) (sep : N).



Lemma replace_char_fixed a new s : a ∉ s → Py.replace [a] new s = s.
Proof.
  rewrite replace_char. induction s as [|c s IH]; simpl; [done|].
  intros [Hc Hs]%not_elem_of_cons. apply N.eqb_neq in Hc. rewrite Hc. simpl.
  f_equal. by apply IH.
Qed.

Lemma replace_char_absent a b s : a ≠ b → a ∉ Py.replace [a] [b] s.
Proof.
  intros Hab. rewrite replace_char.
  induction s as [|c s IH]; simpl; [apply not_elem_of_nil|].
  destruct (a =? c) eqn:Hc; simpl; apply not_elem_of_cons; split; try done.
  by apply N.eqb_neq in Hc.
Qed.

Lemma replace_char_Forall (P : N → Prop) a new s :
  Forall P new → Forall P s → Forall P (Py.replace [a] new s).
Proof.
  intros Hnew. rewrite replace_char.
  induction 1 as [|c s Hc Hs IH]; simpl; [constructor|].
  apply Forall_app. split; [|done]. destruct (a =? c); [done | by constructor].
Qed.

(** [split] gives at least one piece. *)
Lemma split_nonempty sep s : ∃ hd tl, Py.split sep s = hd :: tl.
Proof.
  induction s as [|c s (hd & tl & IH)]; simpl; [by eauto|].
  rewrite IH. destruct (c =? sep); eauto.
Qed.

Lemma split_cons_sep sep s : Py.split sep (sep :: s) = [] :: Py.split sep s.
Proof.
  simpl. destruct (split_nonempty sep s) as (hd & tl & ->).
  by rewrite N.eqb_refl.
Qed.

(** Characters in front of a string that are no separator go to its first
    piece. *)
Lemma split_prefix sep p s hd tl :
  sep ∉ p → Py.split sep s = hd :: tl →
  Py.split sep (p ++ s) = (p ++ hd) :: tl.
Proof.
  intros Hp Hs. induction p as [|c p IH]; simpl; [done|].
  apply not_elem_of_cons in Hp as [Hc Hp]. rewrite (IH Hp).
  apply not_eq_sym, N.eqb_neq in Hc. by rewrite Hc.
Qed.

Lemma split_nosep sep s : sep ∉ s → Py.split sep s = [s].
Proof.
  intros Hs. rewrite <- (app_nil_r s) at 1.
  rewrite (split_prefix sep s [] [] []); [by rewrite app_nil_r|done..].
Qed.

Lemma split_app sep a b :
  Py.split sep (a ++ sep :: b) = Py.split sep a ++ Py.split sep b.
Proof.
  induction a as [|c a IH].
  - apply split_cons_sep.
  - cbn [app Py.split]. rewrite IH.
    destruct (split_nonempty sep a) as (hd & tl & ->). simpl.
    by destruct (c =? sep).
Qed.

(** The lines of lines that are joined are the lines of each. *)
Lemma split_join sep lines :
  lines ≠ [] →
  Py.split sep (Py.join [sep] lines) = flat_map (Py.split sep) lines.
Proof.
  induction lines as [|l lines IH]; [done|]. intros _.
  destruct lines as [|l' lines].
  - simpl. by rewrite app_nil_r.
  - change (Py.join [sep] (l :: l' :: lines))
      with (l ++ sep :: Py.join [sep] (l' :: lines)).
    rewrite split_app, IH by done. reflexivity.
Qed.

Lemma join_split sep s : Py.join [sep] (Py.split sep s) = s.
Proof.
  induction s as [|c s IH]; simpl; [done|].
  destruct (split_nonempty sep s) as (hd & tl & Hs). rewrite Hs in *.
  destruct (c =? sep) eqn:Hc.
  - apply N.eqb_eq in Hc as ->.
    change (Py.join [sep] ([] :: hd :: tl)) with (sep :: Py.join [sep] (hd :: tl)).
    by rewrite IH.
  - destruct tl as [|hd' tl]; simpl in *; by rewrite IH.
Qed.

Lemma split_Forall (P : N → Prop) sep s :
  Forall P s → Forall (Forall P) (Py.split sep s).
Proof.
  induction 1 as [|c s Hc Hs IH]; simpl; [by repeat constructor|].
  destruct (split_nonempty sep s) as (hd & tl & Heq). rewrite Heq in *.
  apply Forall_cons in IH as [Hhd Htl].
  destruct (c =? sep); repeat constructor; done.
Qed.

Lemma startswith_app p s t :
  Py.startswith p s = true → Py.startswith p (s ++ t) = true.
Proof.
  revert s. induction p as [|a p IH]; intros s; simpl; [done|].
  destruct s as [|b s]; simpl; [done|].
  intros [-> Hs]%andb_prop. simpl. by apply IH.
Qed.

End MoreStrings.

(** ** Filename Sanitizer *)

Section Sanitizer.
Context `{UnicodeTables}.
Implicit Types (s title : list N).

Lemma reserved_chars_eq :
  reserved_chars = [0x3C; 0x3E; 0x3A; 0x22; 0x2F; 0x5C; 0x7C; 0x3F; 0x2A].
Proof. reflexivity. Qed.

Lemma reserved_spec c : reserved c = true ↔ c ∈ reserved_chars.
Proof.
  unfold reserved, Py.mem. rewrite existsb_exists. split.
  - intros (x & Hx & ->%N.eqb_eq). by apply list_elem_of_In.
  - intros Hc. exists c. split; [by apply list_elem_of_In | apply N.eqb_refl].
Qed.

Lemma tidy_Untitled : tidy Untitled.
Proof.
  unfold tidy. repeat split; try reflexivity.
  - vm_compute. repeat constructor.
  - vm_compute. repeat constructor.
  - vm_compute. lia.
Qed.

Lemma sanitize_Untitled : sanitize_filename Untitled = Untitled.
Proof. vm_compute. reflexivity. Qed.

(** The string before the length limit is applied. *)
Lemma tidy_core title :
  let s := Py.strip (Py.re_collapse_spaces
             (Py.re_delete (λ c, negb (allowed c)) (Py.re_delete reserved title))) in
  Forall (λ c, reserved c = false) s
  ∧ Forall (λ c, negb (allowed c) = false) s
  ∧ no_lead s ∧ Py.rstrip s = s ∧ single_spaced false s = true.
Proof.
  intros s. subst s. repeat split.
  - apply strip_Forall, collapse_Forall; [reflexivity|].
    apply re_delete_Forall, re_delete_class.
  - apply strip_Forall, collapse_Forall; [reflexivity|].
    apply re_delete_class.
  - apply no_lead_rstrip, no_lead_lstrip.
  - apply rstrip_idem.
  - apply single_spaced_rstrip, (single_spaced_lstrip false).
    apply collapse_single_spaced.
Qed.

Lemma sanitize_tidy title : tidy (sanitize_filename title).
Proof.
  unfold sanitize_filename.
  destruct (_ || _); [apply tidy_Untitled|].
  destruct (tidy_core title) as (Hr & Ha & Hl & Ht & Hs).
  set (s := Py.strip _) in *. clearbody s.
  set (fn := if bool_decide (250 < length s)%nat then _ else _).
  assert (tidy fn) as Htidy.
  { subst fn. case_bool_decide as Hlen.
    - repeat split.
      + by apply rstrip_Forall, Forall_take.
      + by apply rstrip_Forall, Forall_take.
      + by apply no_lead_rstrip, no_lead_take.
      + apply rstrip_idem.
      + by apply single_spaced_rstrip, single_spaced_take.
      + pose proof (rstrip_length (take 250 s)).
        rewrite length_take in *. lia.
    - repeat split; try done. lia. }
  clearbody fn. case_bool_decide; [apply tidy_Untitled | done].
Qed.

Lemma sanitize_nonempty title : sanitize_filename title ≠ [].
Proof.
  unfold sanitize_filename.
  destruct (_ || _); [done|]. by case_bool_decide.
Qed.

Lemma tidy_fixed s : s ≠ [] → tidy s → sanitize_filename s = s.
Proof.
  intros Hne (Hr & Ha & Hl & Ht & Hs & Hlen).
  assert (Py.strip s = s) as Hstrip by by apply strip_fixed.
  unfold sanitize_filename.
  rewrite Hstrip, (bool_decide_eq_false_2 _ Hne). simpl.
  rewrite (re_delete_fixed reserved s Hr).
  rewrite (re_delete_fixed _ s Ha).
  unfold Py.re_collapse_spaces. rewrite (collapse_fixed _ _ Hs), Hstrip.
  rewrite (bool_decide_eq_false_2 (250 < length s)%nat) by lia.
  by rewrite (bool_decide_eq_false_2 _ Hne).
Qed.

(** C5. For every title, empty and non-ASCII ones included, the file name
    the sanitizer returns is not empty, has at most 250 characters, and
    contains none of the reserved path characters
    [<], [>], [:], the double quote, [/], [\], [|], [?], [*]. *)
Theorem sanitize_filename_guarantee title :
  sanitize_filename title ≠ []
  ∧ (length (sanitize_filename title) ≤ 250)%nat
  ∧ ∀ c, c ∈ [0x3C; 0x3E; 0x3A; 0x22; 0x2F; 0x5C; 0x7C; 0x3F; 0x2A]
         → c ∉ sanitize_filename title.
Proof.
  destruct (sanitize_tidy title) as (Hr & _ & _ & _ & _ & Hlen).
  split; [apply sanitize_nonempty|]. split; [done|].
  intros c Hc Hin. rewrite <- reserved_chars_eq in Hc.
  apply reserved_spec in Hc.
  rewrite Forall_forall in Hr. specialize (Hr c Hin). congruence.
Qed.

(** C10. The sanitizer is idempotent: sanitizing a sanitized file name
    returns it unchanged. *)
Theorem sanitize_filename_idempotent title :
  sanitize_filename (sanitize_filename title) = sanitize_filename title.
Proof. apply tidy_fixed; [apply sanitize_nonempty | apply sanitize_tidy]. Qed.

End Sanitizer.

(** ** Tag Formatter *)

Section Tags.
Context `{UnicodeTables}.
Implicit Types (tags acc : list (list N)) (tag folder tags_str : list N).

Lemma unique_step_spec acc tag :
  NoDup acc →
  NoDup (unique_step acc tag)
  ∧ acc `prefix_of` unique_step acc tag
  ∧ ∀ x, x ∈ unique_step acc tag ↔ x ∈ acc ∨ x = tag.
Proof.
  intros Hacc. unfold unique_step. case_bool_decide as Hin.
  - split; [done|]. split; [done|]. intros x. split; [auto|].
    intros [?| ->]; done.
  - split.
    + apply NoDup_app. split; [done|]. split; [|apply NoDup_singleton].
      intros x Hx ->%list_elem_of_singleton. done.
    + split; [by apply prefix_app_r|]. intros x.
      rewrite elem_of_app, list_elem_of_singleton. done.
Qed.

(** The loop keeps what it has collected, never collects a tag twice, and
    collects every tag it is given. *)
Lemma fold_unique_spec tags acc :
  NoDup acc →
  NoDup (fold_left unique_step tags acc)
  ∧ acc `prefix_of` fold_left unique_step tags acc
  ∧ ∀ x, x ∈ fold_left unique_step tags acc ↔ x ∈ acc ∨ x ∈ tags.
Proof.
  revert acc. induction tags as [|tag tags IH]; intros acc Hacc; simpl.
  - split; [done|]. split; [done|]. intros x. rewrite elem_of_nil. tauto.
  - destruct (unique_step_spec acc tag Hacc) as (Hnd & Hpre & Hmem).
    destruct (IH _ Hnd) as (Hnd' & Hpre' & Hmem').
    split; [done|]. split; [by etrans|].
    intros x. rewrite Hmem', Hmem, elem_of_cons. tauto.
Qed.

Lemma remove_duplicates_cons tag tags :
  remove_duplicates (tag :: tags) = fold_left unique_step tags [tag].
Proof. reflexivity. Qed.

Lemma remove_duplicates_head tag tags :
  ∃ rest, remove_duplicates (tag :: tags) = tag :: rest
          ∧ NoDup (tag :: rest)
          ∧ ∀ x, x ∈ tag :: rest ↔ x ∈ tag :: tags.
Proof.
  rewrite remove_duplicates_cons.
  destruct (fold_unique_spec tags [tag]) as (Hnd & [rest Hpre] & Hmem).
  { apply NoDup_singleton. }
  exists rest. simpl in Hpre. rewrite <- Hpre. split; [done|]. split; [done|].
  intros x. rewrite Hmem, list_elem_of_singleton, elem_of_cons. done.
Qed.

Lemma collected_tags_sentinel tags_str folder :
  no_folder_tag folder →
  collected_tags tags_str folder = clippings :: user_tags tags_str.
Proof.
  intros Hf. unfold collected_tags, user_tags, Py.truthy.
  assert (negb (bool_decide (folder = []))
          && negb (bool_decide (Py.lower folder = lit "unsorted")) = false) as ->.
  { destruct Hf as [Hf|Hf]; rewrite (bool_decide_eq_true_2 _ Hf); simpl;
      [done | apply andb_false_r]. }
  by destruct (_ && _).
Qed.

Lemma collected_tags_folder tags_str folder :
  ¬ no_folder_tag folder →
  collected_tags tags_str folder
  = clippings :: tag_of folder :: user_tags tags_str.
Proof.
  intros Hf. unfold collected_tags, user_tags, Py.truthy.
  rewrite (bool_decide_eq_false_2 (folder = [])) by (intros ?; apply Hf; by left).
  rewrite (bool_decide_eq_false_2 (Py.lower folder = _))
    by (intros ?; apply Hf; by right).
  simpl. by destruct (_ && _).
Qed.

Lemma collected_tags_head tags_str folder :
  ∃ rest, collected_tags tags_str folder = clippings :: rest.
Proof.
  unfold collected_tags.
  destruct (_ && _); destruct (_ && _); simpl; eauto.
Qed.

Lemma replace_space_hyphen s : Py.replace (lit " ") (lit "-") s = hyphenated s.
Proof.
  change (lit " ") with [0x20]. change (lit "-") with [0x2D].
  rewrite replace_char. unfold hyphenated.
  induction s as [|c s IH]; [done|].
  cbn [flat_map List.map]. rewrite (N.eqb_sym 0x20 c).
  destruct (c =? 0x20); simpl; f_equal; exact IH.
Qed.

(** The tag made of a string: its lower case, with a hyphen for each
    space. *)
Lemma tag_of_spec s : tag_of s = hyphenated (Py.lower s).
Proof. apply replace_space_hyphen. Qed.

Lemma lower_ascii s : forallb Py.isascii s = true → Py.lower s = fold_case s.
Proof. unfold Py.lower. by intros ->. Qed.

Lemma fold_case_fixed s :
  Forall (λ c, Py.isupper_ascii c = false) s → fold_case s = s.
Proof.
  unfold fold_case. induction 1 as [|c s Hc Hs IH]; simpl; [done|].
  by rewrite Hc, IH.
Qed.

Lemma fold_case_no_capital s :
  Forall (λ c, Py.isupper_ascii c = false) (fold_case s).
Proof.
  unfold fold_case. induction s as [|c s IH]; simpl; constructor; [|done].
  destruct (Py.isupper_ascii c) eqn:Hc; [|done].
  unfold Py.isupper_ascii in *. apply andb_prop in Hc as [Hlo Hhi].
  apply N.leb_le in Hlo, Hhi. apply andb_false_iff. right.
  apply N.leb_gt. lia.
Qed.

(** A string that is [unsorted] but for the case of its letters is made of
    ASCII letters. *)
Lemma fold_case_ascii s t :
  fold_case s = t → forallb Py.isascii t = true → forallb Py.isascii s = true.
Proof.
  intros <-. unfold fold_case. induction s as [|c s IH]; simpl; [done|].
  intros [Hc Hs]%andb_prop. rewrite (IH Hs), andb_true_r.
  destruct (Py.isupper_ascii c) eqn:Hup; [|done].
  unfold Py.isascii in *. apply N.ltb_lt in Hc. apply N.ltb_lt. lia.
Qed.

Lemma lower_no_capital s :
  lower_gives_no_capital → Forall (λ c, Py.isupper_ascii c = false) (Py.lower s).
Proof.
  intros Hlow. unfold Py.lower.
  destruct (forallb Py.isascii s); [apply fold_case_no_capital | apply Hlow].
Qed.

Lemma tag_of_no_capital s :
  lower_gives_no_capital → Forall (λ c, Py.isupper_ascii c = false) (tag_of s).
Proof.
  intros Hlow. rewrite tag_of_spec. unfold hyphenated.
  apply Forall_forall. intros c (c' & <- & Hin)%list_elem_of_In%in_map_iff.
  destruct (c' =? 0x20); [done|].
  pose proof (lower_no_capital s Hlow) as Hall. rewrite Forall_forall in Hall.
  by apply Hall, list_elem_of_In.
Qed.

(** With tables that give no capital, a tag of the list is its own lower
    case. *)
Lemma collected_tags_no_capital tags_str folder :
  lower_gives_no_capital →
  Forall (λ tag, fold_case tag = tag) (collected_tags tags_str folder).
Proof.
  intros Hlow.
  assert (Forall (λ tag, fold_case tag = tag)
            ([clippings] ++ [tag_of folder] ++ existing_tags tags_str)) as Hall.
  { rewrite !Forall_app, !Forall_singleton. split; [reflexivity|]. split.
    - by apply fold_case_fixed, tag_of_no_capital.
    - unfold existing_tags. apply Forall_forall.
      intros tag (piece & <- & _)%list_elem_of_In%in_map_iff.
      by apply fold_case_fixed, tag_of_no_capital. }
  rewrite !Forall_app in Hall. destruct Hall as (Hc & Hf & He).
  unfold collected_tags.
  destruct (_ && _); destruct (_ && _); rewrite ?Forall_app; by repeat split.
Qed.

Lemma format_tags_spec tags_str folder :
  ∃ rest, format_tags tags_str folder = clippings :: rest
          ∧ NoDup (clippings :: rest)
          ∧ ∀ x, x ∈ clippings :: rest ↔ x ∈ collected_tags tags_str folder.
Proof.
  unfold format_tags.
  destruct (collected_tags_head tags_str folder) as [tags ->].
  apply remove_duplicates_head.
Qed.

(** The tag of a folder that adds one. *)
Lemma format_tags_adds tags_str folder :
  ¬ no_folder_tag folder →
  tag_of folder ∈ format_tags tags_str folder
  ∧ (tag_of folder ≠ clippings →
     format_tags tags_str folder !! 1%nat = Some (tag_of folder))
  ∧ (∀ tag, tag ∈ format_tags tags_str folder
            ↔ tag = tag_of folder ∨ tag ∈ format_tags tags_str []).
Proof.
  intros Hf.
  assert (no_folder_tag []) as Hnil by by left.
  destruct (format_tags_spec tags_str folder) as (rest & Heq & _ & Hmem).
  destruct (format_tags_spec tags_str []) as (rest0 & Heq0 & _ & Hmem0).
  rewrite (collected_tags_folder _ _ Hf) in Hmem.
  rewrite (collected_tags_sentinel _ _ Hnil) in Hmem0.
  split; [|split].
  - rewrite Heq. apply Hmem. right. by left.
  - intros Hne. unfold format_tags.
    rewrite (collected_tags_folder _ _ Hf), remove_duplicates_cons. simpl.
    unfold unique_step at 2. rewrite bool_decide_eq_false_2.
    + destruct (fold_unique_spec (user_tags tags_str) [clippings; tag_of folder])
        as (_ & [k Hk] & _).
      * apply NoDup_cons. split; [|apply NoDup_singleton].
        intros Hin%list_elem_of_singleton. by apply Hne.
      * simpl. by rewrite Hk.
    + intros Hin%list_elem_of_singleton. by apply Hne.
  - intros tag. rewrite Heq, Heq0, Hmem, Hmem0, !elem_of_cons. tauto.
Qed.

(** C6. Whatever the tags string and the folder are, the tag list has at
    least one element and holds the tag [clippings] exactly once.  It
    holds it once also when tags are compared without regard to the case
    of their letters: [Clippings] or [CLIPPINGS] among the tags, or as the
    folder, adds no second such tag; and no two tags of the list differ in
    case only.  (The tables are taken to put no capital of [A] to [Z] in a
    lower case, as [str.lower] never does.) *)
Theorem format_tags_clippings_once tags_str folder :
  lower_gives_no_capital →
  (1 ≤ length (format_tags tags_str folder))%nat
  ∧ count_occ str_eq_dec (format_tags tags_str folder) clippings = 1%nat
  ∧ length (List.filter (λ tag, bool_decide (fold_case tag = clippings))
              (format_tags tags_str folder)) = 1%nat
  ∧ NoDup (List.map fold_case (format_tags tags_str folder)).
Proof.
  intros Hlow.
  pose proof (collected_tags_no_capital tags_str folder Hlow) as Hfold.
  destruct (format_tags_spec tags_str folder) as (rest & -> & Hnd & Hmem).
  assert (Forall (λ tag, fold_case tag = tag) (clippings :: rest)) as Hfixed.
  { rewrite Forall_forall in Hfold. apply Forall_forall.
    intros tag Htag. by apply Hfold, Hmem. }
  assert (List.map fold_case (clippings :: rest) = clippings :: rest) as Hmap.
  { clear -Hfixed. induction Hfixed as [|tag tags Htag _ IH]; simpl; [done|].
    by rewrite Htag, IH. }
  split; [simpl; lia|]. split; [|split].
  - apply NoDup_ListNoDup in Hnd.
    apply (proj1 (NoDup_count_occ' str_eq_dec _) Hnd). by left.
  - set (same := λ tag, bool_decide (fold_case tag = clippings)).
    change (List.filter same (clippings :: rest))
      with (clippings :: List.filter same rest).
    simpl. f_equal.
    apply NoDup_cons in Hnd as [Hnotin _].
    apply Forall_inv_tail in Hfixed. clear -Hnotin Hfixed.
    induction Hfixed as [|tag tags Htag _ IH]; [done|].
    apply not_elem_of_cons in Hnotin as [Hne Hnotin].
    cbn [List.filter]. unfold same at 1.
    rewrite Htag, bool_decide_eq_false_2 by done. by apply IH.
  - by rewrite Hmap.
Qed.

(** C7. A folder that is empty, or that is [unsorted] whatever the case
    of its letters, adds no tag: the list is the one of the same tags
    string with no folder.  Every other folder adds one tag, the folder in
    lower case with each of its spaces replaced by a hyphen: the tag is in
    the list, right after [clippings] unless it is [clippings] itself, and
    the other tags of the list are those of the same tags string with no
    folder.  With no tags string the list is [clippings] and this tag.
    The lower case of an ASCII folder is the folder with its capitals in
    lower case, so the folder [Tech News] gives the tag [tech-news], and
    the folders [Unsorted], [UNSORTED] and [unsorted] give none. *)
Theorem format_tags_folder tags_str folder :
  (folder = [] ∨ fold_case folder = lit "unsorted"
   ∨ Py.lower folder = lit "unsorted" →
     format_tags tags_str folder = format_tags tags_str [])
  ∧ (folder ≠ [] → Py.lower folder ≠ lit "unsorted" →
     hyphenated (Py.lower folder) ∈ format_tags tags_str folder
     ∧ (hyphenated (Py.lower folder) ≠ clippings →
        format_tags tags_str folder !! 1%nat = Some (hyphenated (Py.lower folder))
        ∧ format_tags [] folder = [clippings; hyphenated (Py.lower folder)])
     ∧ (∀ tag, tag ∈ format_tags tags_str folder
               ↔ tag = hyphenated (Py.lower folder)
                 ∨ tag ∈ format_tags tags_str []))
  ∧ (forallb Py.isascii folder = true → Py.lower folder = fold_case folder)
  ∧ format_tags [] [] = [clippings]
  ∧ format_tags [] (lit "Tech News") = [clippings; lit "tech-news"]
  ∧ format_tags tags_str (lit "Tech News") !! 1%nat = Some (lit "tech-news")
  ∧ format_tags tags_str (lit "Unsorted") = format_tags tags_str []
  ∧ format_tags tags_str (lit "UNSORTED") = format_tags tags_str []
  ∧ format_tags tags_str (lit "unsorted") = format_tags tags_str [].
Proof.
  assert (∀ f, no_folder_tag f →
            format_tags tags_str f = format_tags tags_str []) as Hnone.
  { intros f Hf. unfold format_tags.
    rewrite (collected_tags_sentinel _ _ Hf).
    rewrite (collected_tags_sentinel tags_str []); [done | by left]. }
  assert (¬ no_folder_tag (lit "Tech News")) as Htech.
  { intros [?|?]; [done | vm_compute in *; congruence]. }
  split; [|split; [|split; [apply lower_ascii|split; [reflexivity|]]]].
  - intros [Hf|[Hf|Hf]]; apply Hnone; [by left| |by right].
    right. rewrite lower_ascii; [done|]. by eapply fold_case_ascii.
  - intros Hne Hlow. rewrite <- tag_of_spec.
    assert (¬ no_folder_tag folder) as Hf by (by intros [?|?]).
    destruct (format_tags_adds tags_str folder Hf) as (Hin & Hsecond & Hmem).
    split; [done|]. split; [|done].
    intros Hclip. split; [by apply Hsecond|].
    unfold format_tags. rewrite (collected_tags_folder _ _ Hf).
    unfold user_tags, remove_duplicates. simpl.
    unfold unique_step at 1. rewrite bool_decide_eq_false_2; [done|].
    intros Hin'%list_elem_of_singleton. by apply Hclip.
  - split; [reflexivity|]. split; [|repeat split; apply Hnone; by right].
    destruct (format_tags_adds tags_str _ Htech) as (_ & Hsecond & _).
    apply Hsecond. vm_compute. congruence.
Qed.

End Tags.

(** The tags [news, Clippings, CLIPPINGS] in the folder [clippings]. *)
Lemma format_tags_clippings_once_witness :
  @format_tags ascii_tables (lit "news, Clippings, CLIPPINGS") (lit "Clippings")
  = [clippings; lit "news"]
  ∧ length (List.filter (λ tag, bool_decide (fold_case tag = clippings))
              (@format_tags ascii_tables (lit "news, Clippings, CLIPPINGS")
                 (lit "Clippings"))) = 1%nat.
Proof.
  split; [reflexivity|].
  apply (@format_tags_clippings_once ascii_tables).
  intros s. apply fold_case_no_capital.
Defined.

(** The folders [UNSORTED] and [Tech News]. *)
Lemma format_tags_folder_witness :
  @format_tags ascii_tables (lit "news, Tech") (lit "UNSORTED")
  = @format_tags ascii_tables (lit "news, Tech") []
  ∧ lit "tech-news" ∈ @format_tags ascii_tables (lit "news, Tech") (lit "Tech News").
Proof.
  destruct (@format_tags_folder ascii_tables (lit "news, Tech") (lit "UNSORTED"))
    as (Hnone & _).
  destruct (@format_tags_folder ascii_tables (lit "news, Tech") (lit "Tech News"))
    as (_ & Hadd & _).
  split; [apply Hnone; right; left; reflexivity|].
  destruct Hadd as [Hin _]; [vm_compute; discriminate ..|exact Hin].
Defined.

(** ** Domain Extractor and Date Formatter *)

Section SubFields.
Context `{UnicodeTables} `{DatetimeLib}.
Implicit Types (s url date_str : list N).





Lemma digit_char v : v < 10 → Py.isdigit_ascii (0x30 + v) = true.
Proof.
  intros Hv. unfold Py.isdigit_ascii.
  apply andb_true_intro. split; apply N.leb_le; lia.
Qed.

Lemma zero_padded_isdigit n v :
  Forall (λ c, Py.isdigit_ascii c = true) (Iso.zero_padded n v).
Proof.
  revert v. induction n as [|n IH]; intros v; cbn [Iso.zero_padded];
    [constructor|].
  apply Forall_app. split; [apply IH|]. apply Forall_singleton.
  apply digit_char, N.mod_lt. lia.
Qed.

Lemma decimal_digits_isdigit fuel v :
  Forall (λ c, Py.isdigit_ascii c = true) (Iso.decimal_digits fuel v).
Proof.
  revert v. induction fuel as [|fuel IH]; intros v; cbn [Iso.decimal_digits];
    [constructor|].
  destruct (v <? 10) eqn:Hv.
  - apply Forall_singleton, digit_char. by apply N.ltb_lt.
  - apply Forall_app. split; [apply IH|]. apply Forall_singleton.
    apply digit_char, N.mod_lt. lia.
Qed.


Lemma year_text_isdigit pad y :
  Forall (λ c, Py.isdigit_ascii c = true) (Iso.year_text pad y).
Proof.
  unfold Iso.year_text, Iso.decimal.
  destruct pad; [apply zero_padded_isdigit | apply decimal_digits_isdigit].
Qed.

(** The date the formatter writes is made of digits and hyphens. *)
Lemma strftime_ymd_chars pad dt :
  Forall (λ c, Py.isdigit_ascii c = true ∨ c = 0x2D) (Iso.strftime_ymd pad dt).
Proof.
  unfold Iso.strftime_ymd. change (lit "-") with [0x2D].
  rewrite !Forall_app, !Forall_singleton. repeat split; auto;
    (eapply Forall_impl; [first [apply year_text_isdigit | apply zero_padded_isdigit]|]);
    auto.
Qed.

Lemma format_date_chars date_str :
  Forall (λ c, Py.isdigit_ascii c = true ∨ c = 0x2D) (format_date date_str).
Proof.
  unfold format_date, format_date_try.
  destruct (_ || _); [constructor|].
  destruct (fromisoformat _); simpl; [apply strftime_ymd_chars | constructor].
Qed.


Local Arguments Iso.digits : simpl never.
Local Arguments Iso.time_and_offset : simpl never.
Local Arguments Iso.valid : simpl never.
Local Arguments Iso.zero_padded : simpl never.





End SubFields.


(** ** Document Assembler *)

Section Document.
Context `{UnicodeTables} `{DatetimeLib}.
Implicit Types (r : gmap string pyval) (f : fields) (line l p body : list N).

Lemma read_fields_spec r f :
  read_fields r = Some f →
  get_stripped r "title" = Some (title f)
  ∧ get_stripped r "url" = Some (url f)
  ∧ get_stripped r "excerpt" = Some (excerpt f)
  ∧ get_stripped r "note" = Some (note f)
  ∧ get_stripped r "highlights" = Some (highlights f).
Proof.
  unfold read_fields. intros Hf.
  repeat match type of Hf with
         | context [get_stripped r ?k] =>
             destruct (get_stripped r k); simpl in Hf; [|done]
         end.
  by simplify_eq/=.
Qed.

(** The front matter closes with the title field and the [---] line. *)
Lemma yaml_lines_end f :
  ∃ front, yaml_lines f = front ++ [lit "title: " ++ title f; lit "---"].
Proof.
  unfold yaml_lines, title_line. eexists. rewrite !app_assoc. reflexivity.
Qed.

Lemma mem_false c s : Py.mem c s = false → c ∉ s.
Proof.
  unfold Py.mem. intros Hmem Hin.
  assert (existsb (N.eqb c) s = true) as Htrue; [|congruence].
  apply existsb_exists. exists c. split; [by apply list_elem_of_In|].
  apply N.eqb_refl.
Qed.

(** *** Where a line feed can come from *)

Lemma takewhile_keeps (P : N → Prop) q s :
  Forall P s → Forall P (Url.takewhile q s).
Proof.
  induction 1 as [|c s Hc Hs IH]; simpl; [constructor|].
  destruct (q c); by constructor.
Qed.

Lemma cut_at_colon_keeps (P : N → Prop) s before after :
  Url.cut_at_colon s = Some (before, after) → Forall P s → Forall P after.
Proof.
  intros Hcut Hs. revert before Hcut.
  induction Hs as [|c s Hc Hs IH]; intros before; simpl; [done|].
  destruct (c =? 0x3A).
  - by intros [= <- <-].
  - destruct (Url.cut_at_colon s) as [[b a]|]; [|done].
    intros [= <- <-]. by eapply IH.
Qed.

Lemma drop_scheme_keeps (P : N → Prop) s :
  Forall P s → Forall P (Url.drop_scheme s).
Proof.
  intros Hs. unfold Url.drop_scheme.
  destruct (Url.cut_at_colon s) as [[[|c before] after]|] eqn:Hcut; try done.
  destruct (_ && _); [|done]. by eapply cut_at_colon_keeps.
Qed.

(** [urlsplit] removes the line feeds of the URL before it splits it. *)
Lemma netloc_one_line u d : Url.netloc u = Some d → 0x0A ∉ d.
Proof.
  unfold Url.netloc.
  set (u1 := Py.re_delete Url.unsafe_to_remove (Py.dropwhile _ u)).
  assert (Forall (λ c, c ≠ 0x0A) u1) as Hu1.
  { eapply Forall_impl; [apply re_delete_class|]. by intros c Hc ->. }
  destruct (Py.startswith _ _).
  - destruct (_ || _); [done|]. destruct (_ && _); [done|].
    destruct (Url.checknetloc _); [|done]. intros [= <-].
    unfold Url.splitnetloc.
    assert (Forall (λ c, c ≠ 0x0A)
              (Url.takewhile (λ c, negb (Py.mem c (lit "/?#")))
                 (drop 2 (Url.drop_scheme u1)))) as Hall.
    { by apply takewhile_keeps, Forall_drop, drop_scheme_keeps. }
    rewrite Forall_forall in Hall. intros Hin. by apply (Hall _ Hin).
  - intros [= <-]. apply not_elem_of_nil.
Qed.

Lemma replace_from_delete_keeps (P : N → Prop) old k s :
  Forall P s → Forall P (Py.replace_from old [] k s).
Proof.
  intros Hs. revert k. induction Hs as [|c s Hc Hs IH]; intros k; simpl;
    [constructor|].
  destruct k; [|apply IH]. destruct (Py.startswith old (c :: s)); simpl; auto.
Qed.

Lemma extract_domain_one_line u : 0x0A ∉ extract_domain u.
Proof.
  unfold extract_domain, extract_domain_try.
  destruct (_ || _); [apply not_elem_of_nil|].
  destruct (Url.netloc u) as [d|] eqn:Hd; simpl; [|apply not_elem_of_nil].
  case_bool_decide; [apply not_elem_of_nil|].
  apply netloc_one_line in Hd.
  assert (Forall (λ c, c ≠ 0x0A) (Py.replace (lit "www.") [] d)) as Hall.
  { apply replace_from_delete_keeps, Forall_forall. by intros c Hc ->. }
  rewrite Forall_forall in Hall. intros Hin. by apply (Hall _ Hin).
Qed.

Lemma format_date_one_line s : 0x0A ∉ format_date s.
Proof.
  pose proof (format_date_chars s) as Hall. rewrite Forall_forall in Hall.
  intros [Hd| [=]]%Hall. vm_compute in Hd. discriminate.
Qed.

(** No tag holds a space: the spaces have become hyphens. *)
Lemma tag_of_no_space s : 0x20 ∉ tag_of s.
Proof. unfold tag_of. by apply (replace_char_absent 0x20 0x2D). Qed.

Lemma format_tags_no_space_in tags_str folder tag :
  tag ∈ format_tags tags_str folder → 0x20 ∉ tag.
Proof.
  destruct (format_tags_spec tags_str folder) as (rest & -> & _ & Hmem).
  intros Hin%Hmem.
  assert (tag ∈ [clippings] ++ [tag_of folder] ++ existing_tags tags_str) as Hall.
  { unfold collected_tags in Hin.
    destruct (_ && _); destruct (_ && _); simpl in Hin |- *;
      rewrite ?elem_of_app, ?elem_of_cons, ?elem_of_nil in *; tauto. }
  rewrite !elem_of_app, !list_elem_of_singleton in Hall.
  destruct Hall as [->|[->|Hex]].
  - by apply mem_false.
  - apply tag_of_no_space.
  - unfold existing_tags in Hex.
    apply list_elem_of_In, in_map_iff in Hex as (piece & <- & _).
    apply tag_of_no_space.
Qed.

(** *** The lines that open a section *)

Lemma heading_has_space line : is_heading line = true → 0x20 ∈ line.
Proof.
  unfold is_heading. change (lit "## ") with [0x23; 0x23; 0x20].
  destruct line as [|a [|b [|c line]]]; cbn [Py.startswith]; intros Hh;
    repeat match type of Hh with
           | _ && _ = true => apply andb_prop in Hh as [? Hh]
           end; try done.
  match goal with Hc : (0x20 =? c) = true |- _ => apply N.eqb_eq in Hc as <- end.
  rewrite !elem_of_cons. auto.
Qed.

(** A line of the document that starts with a fixed text other than [#]:
    if what follows holds no line feed, or no space, none of the lines it
    makes in the text opens a section. *)
Lemma prefixed_no_heading p c body :
  head p = Some c → c ≠ 0x23 → 0x0A ∉ p →
  0x0A ∉ body ∨ 0x20 ∉ body →
  Forall (λ line, is_heading line = false) (text_lines (p ++ body)).
Proof.
  intros Hp Hc Hlf Hbody. unfold text_lines.
  destruct (split_nonempty 0x0A body) as (hd & tl & Hs).
  rewrite (split_prefix _ _ _ _ _ Hlf Hs).
  apply Forall_cons. split.
  - destruct p as [|c' p]; simplify_eq/=. unfold is_heading.
    change (lit "## ") with [0x23; 0x23; 0x20]. cbn [app Py.startswith].
    apply N.eqb_neq in Hc. by rewrite (N.eqb_sym 0x23 c), Hc.
  - destruct Hbody as [Hbody|Hbody].
    + rewrite (split_nosep _ _ Hbody) in Hs. simplify_eq. constructor.
    + assert (Forall (Forall (λ c, c ≠ 0x20)) (Py.split 0x0A body)) as Hall.
      { apply split_Forall, Forall_forall. by intros x Hx ->. }
      rewrite Hs in Hall. apply Forall_cons in Hall as [_ Hall].
      eapply Forall_impl; [exact Hall|]. intros line Hline.
      destruct (is_heading line) eqn:Hh; [|done].
      apply heading_has_space in Hh. rewrite Forall_forall in Hline.
      by destruct (Hline _ Hh).
Qed.

Local Ltac literal_line :=
  apply Forall_singleton; vm_compute; by repeat constructor.

Local Ltac prefixed_line :=
  eapply prefixed_no_heading;
  [reflexivity | vm_compute; discriminate | apply mem_false; reflexivity |].

(** No line that the front matter puts in the text opens a section, when
    the title and the URL are on one line. *)
Lemma yaml_lines_no_heading f :
  0x0A ∉ title f → 0x0A ∉ url f →
  Forall (λ l, Forall (λ line, is_heading line = false) (text_lines l))
    (yaml_lines f).
Proof.
  intros Htitle Hurl. unfold yaml_lines, title_line.
  assert (0x0A ∉ lit "'") as Hquote by (apply mem_false; reflexivity).
  rewrite !Forall_app. repeat split.
  - literal_line.
  - destruct (Py.truthy _); [|constructor].
    apply Forall_cons. split; [vm_compute; by repeat constructor|].
    apply Forall_singleton. prefixed_line. left.
    destruct (Py.truthy (extract_domain _)).
    + rewrite !not_elem_of_app. repeat split; try done;
        [by apply mem_false | apply extract_domain_one_line | by apply mem_false].
    + by rewrite app_nil_l.
  - destruct (Py.truthy _); [|constructor].
    apply Forall_singleton. prefixed_line. left.
    rewrite not_elem_of_app. split; [apply format_date_one_line | done].
  - destruct (Py.truthy _); [|constructor].
    apply Forall_singleton. prefixed_line. left.
    by apply (replace_char_absent 0x0A 0x20).
  - literal_line.
  - destruct (Py.truthy _); [|constructor].
    apply Forall_singleton. prefixed_line. by left.
  - literal_line.
  - apply Forall_forall.
    intros l (tag & <- & Htag%list_elem_of_In)%list_elem_of_In%in_map_iff.
    prefixed_line. right. by eapply format_tags_no_space_in.
  - apply Forall_cons. split; [prefixed_line; by left|]. literal_line.
Qed.

(** The lines of the Source section are lines of the text as they are. *)
Lemma source_section_lines f :
  0x0A ∉ url f →
  flat_map text_lines (source_section f) = source_section f.
Proof.
  intros Hurl. unfold source_section. destruct (Py.truthy _); [|done].
  cbn [flat_map]. unfold text_lines at 4.
  rewrite (split_nosep 0x0A (lit "[View Original](" ++ url f ++ lit ")")).
  - reflexivity.
  - rewrite !not_elem_of_app. repeat split; try done; by apply mem_false.
Qed.

Lemma source_section_spec f line :
  line ∈ source_section f
  ↔ url f ≠ [] ∧ (line = [] ∨ line = lit "## Source"
                  ∨ line = lit "[View Original](" ++ url f ++ lit ")").
Proof.
  unfold source_section, Py.truthy. case_bool_decide as Hurl; simpl.
  - rewrite elem_of_nil. tauto.
  - rewrite !elem_of_cons, elem_of_nil. tauto.
Qed.

(** C9, for a record whose title and URL are each on one line.  When the
    excerpt, the note and the highlights of the record are empty, the text
    of the document is the front matter followed by the Source section:
    none of its lines is [## Summary] or [## Highlights], the only line
    that opens a section is [## Source], and that line is there exactly when
    the URL is not empty; the text then ends with the four lines of the
    Source section.  The lines of a text are what stands between its line
    feeds. *)
Theorem empty_record_sections r f :
  read_fields r = Some f →
  get_stripped r "excerpt" = Some [] →
  get_stripped r "note" = Some [] →
  get_stripped r "highlights" = Some [] →
  0x0A ∉ title f → 0x0A ∉ url f →
  ∃ doc,
    create_markdown_content r = Some doc
    ∧ doc = Py.join [0x0A] (yaml_lines f ++ source_section f)
    ∧ (lit "## Summary" ∉ text_lines doc)
    ∧ (lit "## Highlights" ∉ text_lines doc)
    ∧ (lit "## Source" ∈ text_lines doc ↔ url f ≠ [])
    ∧ (∀ line, line ∈ text_lines doc → is_heading line = true →
               line = lit "## Source")
    ∧ (url f ≠ [] →
       ∃ front, text_lines doc
                = front ++ [[]; lit "## Source"; [];
                            lit "[View Original](" ++ url f ++ lit ")"]).
Proof.
  intros Hf He Hn Hh Htitle Hurl.
  destruct (read_fields_spec r f Hf) as (_ & _ & He' & Hn' & Hh').
  assert (excerpt f = [] ∧ note f = [] ∧ highlights f = []) as (Hex & Hno & Hhi)
    by (repeat split; congruence).
  assert (content_lines f = yaml_lines f ++ source_section f) as Hlines.
  { unfold content_lines, summary_section, highlights_section.
    by rewrite Hex, Hno, Hhi. }
  exists (Py.join [0x0A] (yaml_lines f ++ source_section f)).
  split.
  { unfold create_markdown_content. rewrite Hf. cbn [mbind option_bind].
    by rewrite Hlines. }
  split; [done|].
  assert (text_lines (Py.join [0x0A] (yaml_lines f ++ source_section f))
          = flat_map text_lines (yaml_lines f) ++ source_section f) as Htext.
  { unfold text_lines at 1. rewrite split_join.
    - fold text_lines. by rewrite flat_map_app, source_section_lines.
    - unfold yaml_lines. done. }
  rewrite Htext.
  assert (∀ line, line ∈ flat_map text_lines (yaml_lines f) →
                  is_heading line = false) as Hyaml.
  { intros line (l & Hl & Hline)%list_elem_of_In%in_flat_map.
    pose proof (yaml_lines_no_heading f Htitle Hurl) as Hall.
    rewrite Forall_forall in Hall.
    specialize (Hall l (proj2 (list_elem_of_In _ _) Hl)).
    rewrite Forall_forall in Hall. by apply Hall, list_elem_of_In. }
  assert (∀ line, line ∈ flat_map text_lines (yaml_lines f) ++ source_section f →
                  is_heading line = true →
                  url f ≠ [] ∧ line = lit "## Source") as Hhead.
  { intros line [Hin|Hin]%elem_of_app Hline.
    - apply Hyaml in Hin. congruence.
    - apply source_section_spec in Hin as [Hne [-> | [-> | ->]]]; done. }
  repeat split.
  - intros Hin. by destruct (Hhead _ Hin eq_refl) as [_ ?].
  - intros Hin. by destruct (Hhead _ Hin eq_refl) as [_ ?].
  - intros Hin. by destruct (Hhead _ Hin eq_refl) as [? _].
  - intros Hne. apply elem_of_app. right. apply source_section_spec. auto.
  - intros line Hin Hline. by destruct (Hhead _ Hin Hline) as [_ ?].
  - intros Hne. eexists. f_equal.
    unfold source_section, Py.truthy. by rewrite bool_decide_eq_false_2.
Qed.

(** C1, on a record whose title is blank.  The front matter ends with the
    title field, and its value is the trimmed title: here the empty string,
    not [Untitled].  The driver writes this document as [Untitled.md]. *)
Theorem blank_title_is_left_empty (output_dir : list N) :
  let r : gmap string pyval := {[ "title"%string := PyStr (lit "  ") ]} in
  content_lines <$> read_fields r
  = Some [lit "---"; lit "published: ''"; lit "tags:"; lit "- clippings";
          lit "title: "; lit "---"]
  ∧ (fst <$> prepare_row output_dir r) = Some (lit "Untitled.md", path_join output_dir (lit "Untitled.md")).
Proof. split; reflexivity. Qed.

End Document.

(** C9, as stated, on two records with nothing but a title, or nothing
    but a URL, that runs over several lines.  The text of the first
    document has the line [## Summary], the text of the second the line
    [## Highlights], although excerpt, note and highlights are empty. *)
Lemma heading_from_title_or_url :
  let summary := lit "x" ++ [0x0A] ++ lit "---" ++ [0x0A] ++ lit "## Summary" in
  let highlights := lit "http://a/" ++ [0x0A] ++ lit "## Highlights" in
  let r1 : gmap string pyval := titled summary in
  let r2 : gmap string pyval := {[ "url"%string := PyStr highlights ]} in
  (∀ k, k ∈ ["excerpt"; "note"; "highlights"]%string →
        get_stripped r1 k = Some [] ∧ get_stripped r2 k = Some [])
  ∧ (∃ doc, @create_markdown_content ascii_tables (classic_datetime true) r1
            = Some doc
            ∧ lit "## Summary" ∈ text_lines doc)
  ∧ (∃ doc, @create_markdown_content ascii_tables (classic_datetime true) r2
            = Some doc
            ∧ lit "## Highlights" ∈ text_lines doc).
Proof.
  intros summary highlights r1 r2. split; [|split].
  - intros k Hk. apply list_elem_of_In in Hk. simpl in Hk.
    destruct Hk as [<-|[<-|[<-|[]]]]; split; reflexivity.
  - eexists. split; [reflexivity|]. vm_compute.
    apply list_elem_of_In. simpl. tauto.
  - eexists. split; [reflexivity|]. vm_compute.
    apply list_elem_of_In. simpl. tauto.
Qed.

(** A record with a title and a URL and nothing else. *)
Lemma empty_record_sections_witness :
  let r : gmap string pyval :=
    {[ "title"%string := PyStr (lit "A page");
       "url"%string := PyStr (lit "https://example.com/a") ]} in
  ∃ doc, @create_markdown_content ascii_tables (classic_datetime true) r = Some doc
         ∧ (lit "## Summary" ∉ text_lines doc)
         ∧ (lit "## Highlights" ∉ text_lines doc)
         ∧ (lit "## Source" ∈ text_lines doc).
Proof.
  intros r.
  destruct (@empty_record_sections ascii_tables (classic_datetime true) r
              {| title := lit "A page"; url := lit "https://example.com/a";
                 excerpt := []; note := []; tags_str := []; folder := [];
                 created := []; cover := []; highlights := [] |}
              eq_refl eq_refl eq_refl eq_refl)
    as (doc & Hdoc & _ & Hsummary & Hhighlights & Hsource & _).
  - apply mem_false. reflexivity.
  - apply mem_false. reflexivity.
  - exists doc. split; [exact Hdoc|]. split; [exact Hsummary|].
    split; [exact Hhighlights|]. apply Hsource. discriminate.
Defined.

(** ** Batch Driver *)

Section Batch.
Context `{UnicodeTables} `{DatetimeLib}.
Variable w : world.
Implicit Types (rd : reader) (st : state) (output_dir csv_file : list N)
  (e : event) (r : gmap string pyval).

Lemma same_but_console_refl st : same_but_console st st.
Proof. by repeat split. Qed.

Lemma same_but_console_trans st1 st2 st3 :
  same_but_console st1 st2 → same_but_console st2 st3 →
  same_but_console st1 st3.
Proof.
  intros (? & ? & ? & ?) (? & ? & ? & ?). repeat split; congruence.
Qed.

Lemma consistent_same output_dir st st' :
  same_but_console st st' → consistent output_dir st →
  consistent output_dir st'.
Proof.
  intros (Hf & Hs & _ & Hc) [Hcount Hfiles]. split.
  - by rewrite Hs, Hc.
  - intros name. rewrite Hc, Hf. apply Hfiles.
Qed.

(** A [print] adds to the console and touches nothing else. *)
Lemma print_spec e st st' : print w e st = Some st' → st' = printed e st.
Proof. unfold print. destruct (can_print _ _ _); by intros [= <-]. Qed.

Lemma print_same e st st' : print w e st = Some st' → same_but_console st st'.
Proof. intros ->%print_spec. by repeat split. Qed.

Lemma print_all_same es st : same_but_console st (state_of (print_all w es st)).
Proof.
  revert st. induction es as [|e es IH]; intros st; simpl.
  - apply same_but_console_refl.
  - destruct (print w e st) as [st'|] eqn:He; [|apply same_but_console_refl].
    eapply same_but_console_trans; [by eapply print_same | apply IH].
Qed.

(** The handler of a row: the row is counted as failed, unless the
    [print] raises, and then nothing has changed. *)
Lemma row_failed_spec r st :
  match row_failed w r st with
  | Normal st' =>
      files st' = files st
      ∧ successful_conversions st' = successful_conversions st
      ∧ failed_conversions st' = S (failed_conversions st)
      ∧ created_files st' = created_files st
  | Raises st' => st' = st
  end.
Proof.
  unfold row_failed. destruct (print w _ st) as [st'|] eqn:He; [|done].
  apply print_same in He as (? & ? & ? & ?). simpl. repeat split; congruence.
Qed.

Lemma prepare_row_path output_dir r filename filepath content :
  prepare_row output_dir r = Some (filename, filepath, content) →
  filepath = path_join output_dir filename.
Proof.
  unfold prepare_row.
  destruct (get_stripped r "title"); simpl; [|done].
  destruct (create_markdown_content r); simpl; [|done].
  by intros [= <- <- <-].
Qed.

Lemma process_row_consistent output_dir r st :
  consistent output_dir st →
  consistent output_dir (state_of (process_row w output_dir r st)).
Proof.
  intros Hst.
  assert (consistent output_dir (state_of (row_failed w r st))) as Hfailed.
  { pose proof (row_failed_spec r st) as Hrow.
    destruct (row_failed w r st) as [st'|st']; simpl; [|by subst].
    destruct Hrow as (Hf & Hs & _ & Hc). destruct Hst as [Hcount Hfiles].
    split; [by rewrite Hs, Hc|]. intros name. rewrite Hc, Hf. apply Hfiles. }
  unfold process_row.
  destruct (prepare_row output_dir r) as [[[filename filepath] content]|] eqn:Hrow;
    [|done].
  destruct (can_write w filepath); [|done].
  apply prepare_row_path in Hrow as ->. destruct Hst as [Hcount Hfiles].
  split; simpl.
  - rewrite length_app. simpl. lia.
  - intros name [Hin| ->%list_elem_of_singleton]%elem_of_app.
    + apply lookup_insert_is_Some'. right. by apply Hfiles.
    + apply lookup_insert_is_Some'. by left.
Qed.

Lemma process_row_counts output_dir r st st' :
  process_row w output_dir r st = Normal st' →
  (successful_conversions st' + failed_conversions st'
   = S (successful_conversions st + failed_conversions st))%nat.
Proof.
  assert (row_failed w r st = Normal st' →
          (successful_conversions st' + failed_conversions st'
           = S (successful_conversions st + failed_conversions st))%nat)
    as Hfailed.
  { intros Hrow. pose proof (row_failed_spec r st) as Hspec.
    rewrite Hrow in Hspec. destruct Hspec as (_ & -> & -> & _). lia. }
  unfold process_row.
  destruct (prepare_row output_dir r) as [[[? filepath] ?]|]; [|done].
  destruct (can_write w filepath); [|done].
  intros [= <-]. simpl. lia.
Qed.

Lemma process_rows_consistent output_dir rd st :
  consistent output_dir st →
  consistent output_dir (state_of (process_rows w output_dir rd st)).
Proof.
  revert st. induction rd as [|r rest IH|]; intros st Hst; simpl; [done| |done].
  pose proof (process_row_consistent output_dir r st Hst) as Hrow.
  destruct (process_row w output_dir r st) as [st'|st']; simpl in *; auto.
Qed.

(** A loop that comes to its end has counted every row of the reader. *)
Lemma process_rows_counts output_dir rd st st' :
  process_rows w output_dir rd st = Normal st' →
  ∃ n, total_rows rd = Some n
       ∧ (successful_conversions st' + failed_conversions st'
          = successful_conversions st + failed_conversions st + n)%nat.
Proof.
  revert st. induction rd as [|r rest IH|]; intros st; simpl; [| |done].
  - intros [= <-]. exists 0%nat. split; [done | lia].
  - destruct (process_row w output_dir r st) as [st1|st1] eqn:Hrow; [|done].
    intros (n & -> & Hsum)%IH. exists (S n). split; [done|].
    apply process_row_counts in Hrow. lia.
Qed.

(** The outer [try] block comes to its end when the file is opened and
    sniffed, the first pass has counted its rows and the loop has ended. *)
Lemma try_block_Done csv_file output_dir st st' :
  try_block w csv_file output_dir st = Done st' →
  ∃ rd n st0,
    open_csv w csv_file = Opened true rd ∧ total_rows rd = Some n
    ∧ same_but_console st st0
    ∧ process_rows w output_dir rd st0 = Normal st'.
Proof.
  unfold try_block.
  destruct (open_csv w csv_file) as [| |[|] rd]; try done.
  destruct (total_rows rd) as [n|] eqn:Hn; [|done].
  destruct (print w _ st) as [st1|] eqn:H1; [|done].
  destruct (print w _ st1) as [st2|] eqn:H2; [|done].
  destruct (process_rows w output_dir rd st2) as [st3|st3] eqn:Hrows; [|done].
  intros [= <-]. exists rd, n, st2. split; [done|]. split; [done|].
  split; [|done].
  eapply same_but_console_trans; by eapply print_same.
Qed.

(** One row titled [A], or [B], read with a console that prints
    everything: both runs return (1, 0), and collect different names. *)
Lemma two_runs :
  let run (title : string) :=
    convert_csv_to_markdown
      (world_reading (NextRow (titled (lit title)) EndOfFile))
      (lit "bookmarks.csv") (lit "output") ∅ in
  (run "A").1 = Completed (1, 0)%nat
  ∧ (run "B").1 = Completed (1, 0)%nat
  ∧ created_files (run "A").2 = [lit "A.md"]
  ∧ created_files (run "B").2 = [lit "B.md"].
Proof. repeat split; reflexivity. Qed.

(** C2, as the code has it.  Whenever the function returns, it returns a
    pair of counts and nothing else.  After a failure of the whole batch
    the pair is (0, 1).  At the end of a run the pair is the count of
    successful conversions and the count of failed ones: the first is the
    number of file names collected, each of them the name of a file written
    under the output directory, and the two add up to the number of rows
    of the input.  The names themselves are not returned: they are no
    function of the pair. *)
Theorem convert_returns_counts csv_file output_dir disk o st v :
  convert_csv_to_markdown w csv_file output_dir disk = (o, st) →
  return_value o = Some v →
  ((o = BatchFailure v ∧ v = (0, 1)%nat)
   ∨ (o = Completed v
      ∧ v = (successful_conversions st, failed_conversions st)
      ∧ v.1 = length (created_files st)
      ∧ (∀ name, name ∈ created_files st →
                 is_Some (files st !! path_join output_dir name))
      ∧ ∃ rd, open_csv w csv_file = Opened true rd
              ∧ total_rows rd = Some (v.1 + v.2)%nat))
  ∧ ¬ ∃ names_of : nat * nat → list (list N),
        ∀ w' csv_file' output_dir' disk' o' st' v',
          convert_csv_to_markdown w' csv_file' output_dir' disk' = (o', st') →
          return_value o' = Some v' →
          names_of v' = created_files st'.
Proof.
  intros Hrun Hv. split.
  2:{ intros [names_of Hnames].
      pose proof two_runs as Hruns. cbv zeta in Hruns.
      destruct Hruns as (Ha & Hb & Hna & Hnb).
      pose proof (Hnames _ _ _ _ _ _ (1, 0)%nat (surjective_pairing _)
                    (f_equal return_value Ha)) as Hfa.
      pose proof (Hnames _ _ _ _ _ _ (1, 0)%nat (surjective_pairing _)
                    (f_equal return_value Hb)) as Hfb.
      rewrite Hna in Hfa. rewrite Hnb in Hfb. rewrite Hfa in Hfb.
      discriminate. }
  revert Hrun. unfold convert_csv_to_markdown.
  set (st0 := {| files := disk; successful_conversions := 0;
                 failed_conversions := 0; created_files := [];
                 console := [] |}).
  destruct (mkdir_ok w output_dir); cbn [negb]; [|intros [= <- <-]; done].
  destruct (try_block w csv_file output_dir st0) as [st1|st1|st1] eqn:Htry.
  - destruct (print_all w (summary_events output_dir st1) st1)
      as [st2|st2] eqn:Hprint;
      [|intros [= <- <-]; done].
    intros [= <- <-]. simpl in Hv. injection Hv as <-. right.
    apply try_block_Done in Htry as (rd & n & st0' & Hopen & Hn & Hsame & Hrows).
    assert (consistent output_dir st0') as Hst0.
    { apply (consistent_same _ st0); [done|]. split; [done|].
      intros name []%elem_of_nil. }
    pose proof (process_rows_consistent output_dir rd st0' Hst0) as Hcons.
    rewrite Hrows in Hcons. simpl in Hcons.
    pose proof (print_all_same (summary_events output_dir st1) st1) as Hsame2.
    rewrite Hprint in Hsame2. simpl in Hsame2.
    destruct (consistent_same _ _ _ Hsame2 Hcons) as [Hcount Hfiles].
    apply process_rows_counts in Hrows as (n' & Hn' & Hsum).
    destruct Hsame as (_ & Hs0 & Hf0 & _). destruct Hsame2 as (_ & Hs2 & Hf2 & _).
    split; [done|]. split; [done|]. split; [done|]. split; [done|].
    exists rd. split; [done|]. rewrite Hn'. f_equal. simpl.
    rewrite Hs0, Hf0 in Hsum. simpl in Hsum. lia.
  - destruct (print w _ st1); intros [= <- <-]; [|done].
    simpl in Hv. injection Hv as <-. by left.
  - destruct (print w _ st1); intros [= <- <-]; [|done].
    simpl in Hv. injection Hv as <-. by left.
Qed.

End Batch.

(** ** The functions on chosen inputs *)

Section Evaluations.
Context `{UnicodeTables}.

(** C3, on a host with [www.] past its start.  The function removes every
    [www.] of the network location, so the host [mywww.example.com] comes
    out as [myexample.com]; a port is part of the network location and is
    kept.  A leading [www.] alone is stripped as intended:
    [www.example.com] gives [example.com]. *)
Theorem extract_domain_removes_every_www :
  extract_domain (lit "https://mywww.example.com/a/b") = lit "myexample.com"
  ∧ extract_domain (lit "https://example.com:8080/a/b") = lit "example.com:8080"
  ∧ extract_domain (lit "https://www.example.com/a/b") = lit "example.com".
Proof. repeat split; reflexivity. Qed.

Context `{DatetimeLib}.

(** C4, on a file of two rows read with a console that prints ASCII only.
    The first row, titled [R], is converted and its file is written.  The
    second row has a title that is not ASCII and no cell for the URL: it
    fails, and the [print] of its handler fails on the title.  That
    exception leaves the loop and reaches the handler of the outer [try],
    which reports a failure of the whole batch: the function returns
    (0, 1), although it has counted one conversion and the file [R.md] is
    written. *)
Theorem batch_failure_after_a_file_is_written :
  let good : gmap string pyval :=
    {[ "title"%string := PyStr (lit "R");
       "url"%string := PyStr (lit "https://r.example/") ]} in
  let short : gmap string pyval :=
    {[ "title"%string := PyStr [0x65E5; 0x672C; 0x8A9E];
       "url"%string := PyNone ]} in
  let rd := NextRow good (NextRow short EndOfFile) in
  let run := convert_csv_to_markdown (world_ascii_console rd)
               (lit "bookmarks.csv") (lit "output") ∅ in
  run.1 = BatchFailure (0, 1)%nat
  ∧ successful_conversions run.2 = 1%nat
  ∧ failed_conversions run.2 = 0%nat
  ∧ created_files run.2 = [lit "R.md"]
  ∧ text_lines <$> files run.2 !! lit "output/R.md"
    = Some [lit "---"; lit "author:"; lit "- '[[r.example]]'";
            lit "published: ''"; lit "source: https://r.example/";
            lit "tags:"; lit "- clippings"; lit "title: R"; lit "---";
            []; lit "## Source"; [];
            lit "[View Original](https://r.example/)"]
  ∧ console run.2 = [PrintProcessing 2; PrintBlank; PrintReadError].
Proof. repeat split; reflexivity. Qed.

End Evaluations.

(** C2, as stated, on two input files of one row each, titled [A] and
    [B].  Both calls return the pair (1, 0), and they have written
    different files: the names of the files are no part of what is
    returned. *)
Lemma return_value_omits_file_names :
  let run (title : string) :=
    @convert_csv_to_markdown ascii_tables (classic_datetime true)
      (world_reading (NextRow (titled (lit title)) EndOfFile))
      (lit "bookmarks.csv") (lit "output") ∅ in
  return_value (run "A").1 = Some (1, 0)%nat
  ∧ return_value (run "B").1 = Some (1, 0)%nat
  ∧ created_files (run "A").2 = [lit "A.md"]
  ∧ created_files (run "B").2 = [lit "B.md"]
  ∧ ¬ ∃ names_of : nat * nat → list (list N),
        ∀ title v, return_value (run title).1 = Some v →
                   names_of v = created_files (run title).2.
Proof.
  intros run. repeat split; try reflexivity.
  intros [names_of Hnames].
  pose proof (Hnames "A"%string (1, 0)%nat eq_refl) as Ha.
  pose proof (Hnames "B"%string (1, 0)%nat eq_refl) as Hb.
  rewrite Ha in Hb. vm_compute in Hb. discriminate.
Qed.

(** A file of three rows, the second of which has no cell for the URL. *)
Lemma convert_returns_counts_witness :
  let short : gmap string pyval :=
    {[ "title"%string := PyStr (lit "B"); "url"%string := PyNone ]} in
  let rd := NextRow (titled (lit "A"))
              (NextRow short (NextRow (titled (lit "C")) EndOfFile)) in
  let run := @convert_csv_to_markdown ascii_tables (classic_datetime true)
               (world_reading rd) (lit "bookmarks.csv") (lit "output") ∅ in
  run.1 = Completed (2, 1)%nat
  ∧ length (created_files run.2) = 2%nat
  ∧ ∀ name, name ∈ created_files run.2 →
            is_Some (files run.2 !! path_join (lit "output") name).
Proof.
  intros short rd run.
  destruct (@convert_returns_counts ascii_tables (classic_datetime true)
              (world_reading rd) (lit "bookmarks.csv") (lit "output") ∅
              run.1 run.2 (2, 1)%nat (surjective_pairing run) eq_refl)
    as [[[Hfail _]|(Hdone & _ & Hcount & Hfiles & _)] _].
  - discriminate Hfail.
  - split; [exact Hdone|]. split; [symmetry; exact Hcount | exact Hfiles].
Defined.
